(** * officeParser: metadata decoding in [src/utils/xmlUtils.ts]

    A shallow embedding of [parseOfficeMetadata] and
    [parseOOXMLCustomProperties] together with the helpers they call, and
    the properties of the metadata specification checked against them.

    The embedding:
    - a JavaScript string is a [string]; its characters are read as code
      units in the range 0..255;
    - the tree built by [@xmldom/xmldom] is the inductive type [Node]; the
      parser itself and the [Date] constructor are not code of this module
      and are parameters of the development;
    - an object used as a dictionary is the [gmap] of its own enumerable
      properties, written through [obj_set];
    - each decoder is given twice: as a function from the text to the value
      it returns ([Section Decoders]), and as a program that allocates and
      mutates objects on a heap ([Module Imperative]); the program is
      proved to compute the function's value. *)

From Stdlib Require Import String Ascii ZArith NArith List Bool Lia.
From stdpp Require Import gmap strings list fin_maps.
Import ListNotations.

Local Open Scope string_scope.
Local Open Scope list_scope.

(* ===================================================================== *)
(** ** JavaScript strings                                                 *)
(* ===================================================================== *)

Module JSString.

Definition code (c : ascii) : N := N_of_ascii c.

Definition inRange (lo hi : N) (c : ascii) : bool :=
  ((lo <=? code c) && (code c <=? hi))%N.

(** [s] is truthy, i.e. not the empty string. *)
Definition truthy (s : string) : bool :=
  match s with EmptyString => false | String _ _ => true end.

(** [String.prototype.toLowerCase] on code units 0..255: the letters A-Z
    and the Latin-1 capitals (C0..DE except the multiplication sign D7)
    move down by 32; every other code unit is unchanged. *)
Definition lowerChar (c : ascii) : ascii :=
  if inRange 65 90 c || (inRange 192 222 c && negb (code c =? 215)%N)
  then ascii_of_N (code c + 32)
  else c.

Fixpoint toLowerCase (s : string) : string :=
  match s with
  | EmptyString => EmptyString
  | String c s' => String (lowerChar c) (toLowerCase s')
  end.

(** [hay.indexOf(pat) >= 0]: does [pat] occur in [hay] as a substring. *)
Fixpoint includes (pat hay : string) : bool :=
  String.prefix pat hay
  || match hay with
     | EmptyString => false
     | String _ hay' => includes pat hay'
     end.

(** Number of occurrences of a character. *)
Fixpoint count (c : ascii) (s : string) : nat :=
  match s with
  | EmptyString => 0
  | String d s' => (if Ascii.eqb c d then 1 else 0) + count c s'
  end.

(** StrWhiteSpaceChar restricted to code units 0..255: TAB, LF, VT, FF,
    CR, SP and NBSP. *)
Definition isWhiteSpace (c : ascii) : bool :=
  inRange 9 13 c || (code c =? 32)%N || (code c =? 160)%N.

Fixpoint allWhiteSpace (s : string) : bool :=
  match s with
  | EmptyString => true
  | String c s' => isWhiteSpace c && allWhiteSpace s'
  end.

Fixpoint trimStart (s : string) : string :=
  match s with
  | EmptyString => EmptyString
  | String c s' => if isWhiteSpace c then trimStart s' else s
  end.

Fixpoint trimEnd (s : string) : string :=
  match s with
  | EmptyString => EmptyString
  | String c s' =>
      let r := trimEnd s' in
      if isWhiteSpace c && negb (truthy r) then EmptyString else String c r
  end.

Definition trim (s : string) : string := trimEnd (trimStart s).

End JSString.

(* ===================================================================== *)
(** ** JavaScript numbers and [Number(string)]                            *)
(* ===================================================================== *)

(** A number value as far as this module observes it: NaN, an infinity, or
    a finite number kept as the denotation of its literal,
    (-1)^negative * mantissa * 10^exp10.  The rounding to binary64 is not
    represented; it never turns a numeric literal into NaN or back. *)
Inductive JSNumber : Type :=
| NaN
| Infinity (negative : bool)
| Finite (negative : bool) (mantissa : N) (exp10 : Z).

Definition isNaN (n : JSNumber) : bool :=
  match n with NaN => true | _ => false end.

Definition zero : JSNumber := Finite false 0 0.

Module StringToNumber.
Import JSString.

Definition digitOf (radix : N) (c : ascii) : option N :=
  let v :=
    if inRange 48 57 c then Some (code c - 48)%N
    else if inRange 97 102 c then Some (code c - 87)%N
    else if inRange 65 70 c then Some (code c - 55)%N
    else None in
  match v with
  | Some d => if (d <? radix)%N then Some d else None
  | None => None
  end.

(** Reads the longest run of digits of [s] in [radix], continuing the
    value [acc]; returns the value, the number of digits read and the
    rest of the string. *)
Fixpoint digits (radix : N) (s : string) (acc : N) (n : nat)
  : N * nat * string :=
  match s with
  | EmptyString => (acc, n, EmptyString)
  | String c s' =>
      match digitOf radix c with
      | Some d => digits radix s' (acc * radix + d)%N (S n)
      | None => (acc, n, s)
      end
  end.

(** NonDecimalIntegerLiteral after its two-character prefix. *)
Definition nonDecimal (radix : N) (body : string) : JSNumber :=
  match digits radix body 0%N 0 with
  | (v, S _, EmptyString) => Finite false v 0
  | _ => NaN
  end.

(** ExponentPart_opt at the end of a decimal literal: [Some e] when the
    rest of the literal is empty (e = 0) or a well-formed exponent. *)
Definition exponent (s : string) : option Z :=
  match s with
  | EmptyString => Some 0%Z
  | String c s' =>
      if Ascii.eqb c "e" || Ascii.eqb c "E" then
        let '(neg, body) :=
          match s' with
          | String "+" b => (false, b)
          | String "-" b => (true, b)
          | _ => (false, s')
          end in
        match digits 10 body 0%N 0 with
        | (v, S _, EmptyString) =>
            Some (if neg then (- Z.of_N v)%Z else Z.of_N v)
        | _ => None
        end
      else None
  end.

(** StrUnsignedDecimalLiteral other than [Infinity]. *)
Definition unsignedDecimal (neg : bool) (s : string) : JSNumber :=
  let '(m1, n1, r1) := digits 10 s 0%N 0 in
  let '(m, frac, total, r) :=
    match r1 with
    | String "." r1' =>
        let '(m2, n2, r2) := digits 10 r1' m1 0 in (m2, n2, n1 + n2, r2)
    | _ => (m1, 0, n1, r1)
    end in
  match total, exponent r with
  | S _, Some e => Finite neg m (e - Z.of_nat frac)
  | _, _ => NaN
  end.

Definition decimal (s : string) : JSNumber :=
  let '(neg, body) :=
    match s with
    | String "+" b => (false, b)
    | String "-" b => (true, b)
    | _ => (false, s)
    end in
  if String.eqb body "Infinity" then Infinity neg
  else unsignedDecimal neg body.

(** The abstract operation StringToNumber. *)
Definition parse (s : string) : JSNumber :=
  match trim s with
  | EmptyString => zero
  | String "0" (String "x" b) | String "0" (String "X" b) => nonDecimal 16 b
  | String "0" (String "o" b) | String "0" (String "O" b) => nonDecimal 8 b
  | String "0" (String "b" b) | String "0" (String "B" b) => nonDecimal 2 b
  | t => decimal t
  end.

End StringToNumber.

(** [Number(text)] applied to a string. *)
Definition Number (text : string) : JSNumber := StringToNumber.parse text.

(* ===================================================================== *)
(** ** The DOM tree                                                       *)
(* ===================================================================== *)

Local Unset Elimination Schemes.

(** The nodes [@xmldom/xmldom] builds.  [Document] is the root returned by
    the parser; its children hold at most one element, plus comments and
    processing instructions. *)
Inductive Node : Type :=
| Document (childNodes : list Node)
| Element (tagName : string) (attributes : list (string * string))
          (childNodes : list Node)
| Text (data : string)
| CDATASection (data : string)
| Comment (data : string)
| ProcessingInstruction (target data : string).

Local Set Elimination Schemes.

(** Induction over a tree with the hypothesis available for every child. *)
Section NodeInduction.
Variable P : Node -> Prop.
Hypothesis HDocument : forall cs, Forall P cs -> P (Document cs).
Hypothesis HElement : forall t a cs, Forall P cs -> P (Element t a cs).
Hypothesis HText : forall d, P (Text d).
Hypothesis HCData : forall d, P (CDATASection d).
Hypothesis HComment : forall d, P (Comment d).
Hypothesis HPI : forall t d, P (ProcessingInstruction t d).

Fixpoint Node_ind (n : Node) : P n :=
  let children :=
    fix children (cs : list Node) : Forall P cs :=
      match cs with
      | [] => @List.Forall_nil _ P
      | c :: cs' => @List.Forall_cons _ P c cs' (Node_ind c) (children cs')
      end in
  match n with
  | Document cs => HDocument cs (children cs)
  | Element t a cs => HElement t a cs (children cs)
  | Text d => HText d
  | CDATASection d => HCData d
  | Comment d => HComment d
  | ProcessingInstruction t d => HPI t d
  end.
End NodeInduction.

Module DOM.

Definition nodeType (n : Node) : N :=
  match n with
  | Element _ _ _ => 1
  | Text _ => 3
  | CDATASection _ => 4
  | ProcessingInstruction _ _ => 7
  | Comment _ => 8
  | Document _ => 9
  end.

Definition isElement (n : Node) : bool := (nodeType n =? 1)%N.

Definition childNodes (n : Node) : list Node :=
  match n with
  | Document cs | Element _ _ cs => cs
  | _ => []
  end.

(** [el.tagName]; only elements have one. *)
Definition tagName (n : Node) : option string :=
  match n with Element t _ _ => Some t | _ => None end.

(** [node.textContent]: for an element the concatenation of the text
    content of its children, comments and processing instructions left
    out; for a character-data node its data; null for a document. *)
Fixpoint textContent (n : Node) : string :=
  match n with
  | Element _ _ cs =>
      (fix join (l : list Node) : string :=
         match l with
         | [] => ""
         | c :: l' =>
             String.append
               (match c with
                | Comment _ | ProcessingInstruction _ _ => ""
                | _ => textContent c
                end)
               (join l')
         end) cs
  | Text d | CDATASection d | Comment d | ProcessingInstruction _ d => d
  | Document _ => ""
  end.

(** [el.getAttribute(name)]: the value of the first attribute of that
    name, [None] standing for null. *)
Definition getAttribute (n : Node) (name : string) : option string :=
  match n with
  | Element _ attrs _ =>
      snd <$> List.find (fun a => String.eqb (fst a) name) attrs
  | _ => None
  end.

(** A node followed by everything below it, in document order. *)
Fixpoint subtree (n : Node) : list Node :=
  n :: match n with
       | Document cs | Element _ _ cs => flat_map subtree cs
       | _ => []
       end.

(** Everything strictly below [base], in document order. *)
Definition descendants (base : Node) : list Node :=
  flat_map subtree (childNodes base).

Definition hasTagName (name : string) (n : Node) : bool :=
  match n with
  | Element t _ _ => String.eqb name "*" || String.eqb t name
  | _ => false
  end.

(** The live list [base.getElementsByTagName(name)] read once. *)
Definition getElementsByTagName (base : Node) (name : string) : list Node :=
  List.filter (hasTagName name) (descendants base).

End DOM.

(** [getElementsByTagName] of the module: the DOM list as an array. *)
Definition getElementsByTagName (element : Node) (tagName : string)
  : list Node :=
  DOM.getElementsByTagName element tagName.

(** [getDirectChildren]: the child elements with the given tag. *)
Definition getDirectChildren (parent : Node) (tagName : string) : list Node :=
  List.filter
    (fun child =>
       (DOM.nodeType child =? 1)%N
       && match DOM.tagName child with
          | Some t => String.eqb t tagName
          | None => false
          end)
    (DOM.childNodes parent).

(* ===================================================================== *)
(** ** Values and objects                                                 *)
(* ===================================================================== *)

(** A [Date] object: its time value is NaN or a number of milliseconds. *)
Inductive JSDate : Type :=
| InvalidDate
| TimeValue (ms : Z).

(** [isNaN(date.getTime())]. *)
Definition isInvalid (d : JSDate) : bool :=
  match d with InvalidDate => true | TimeValue _ => false end.

(** [string | number | boolean | Date]. *)
Inductive TypedValue : Type :=
| VText (s : string)
| VNumber (n : JSNumber)
| VBoolean (b : bool)
| VTimestamp (d : JSDate).

(** [Record<string, string | number | boolean | Date>] built from [{}]:
    the own enumerable properties of the object. *)
Abbreviation PropertyMap := (gmap string TypedValue).

(** [o[k] = v] on an object created by [{}].  The key [__proto__] is the
    accessor inherited from [Object.prototype]: assigning to it creates no
    own property (a primitive is ignored, an object becomes the prototype).
    Every other key creates or overwrites an own property. *)
Definition obj_set (o : PropertyMap) (k : string) (v : TypedValue)
  : PropertyMap :=
  if String.eqb k "__proto__" then o else <[k := v]> o.

(** [Object.keys(o).length > 0]. *)
Definition hasKeys (o : PropertyMap) : bool := negb (bool_decide (o = ∅)).

(** The fields of [OfficeMetadata], every one optional.  [P] is what the
    [customProperties] field holds: the dictionary itself when the record
    is read as a value, a reference to it when the record lives on the
    heap. *)
Record MetadataFields (P : Type) : Type := mkMetadata {
  title : option string;
  author : option string;
  lastModifiedBy : option string;
  created : option JSDate;
  modified : option JSDate;
  description : option string;
  subject : option string;
  customProperties : option P
}.

Arguments mkMetadata {P}.
Arguments title {P}.
Arguments author {P}.
Arguments lastModifiedBy {P}.
Arguments created {P}.
Arguments modified {P}.
Arguments description {P}.
Arguments subject {P}.
Arguments customProperties {P}.

(** [OfficeMetadata] as a value. *)
Abbreviation OfficeMetadata := (MetadataFields PropertyMap).

(** [{}] *)
Definition emptyMetadata {P : Type} : MetadataFields P :=
  mkMetadata None None None None None None None None.

(** [metadata.field = v], field by field. *)
Definition set_title {P : Type} (v : string) (m : MetadataFields P)
  : MetadataFields P :=
  {| title := Some v; author := author m; lastModifiedBy := lastModifiedBy m;
     created := created m; modified := modified m;
     description := description m; subject := subject m;
     customProperties := customProperties m |}.

Definition set_author {P : Type} (v : string) (m : MetadataFields P)
  : MetadataFields P :=
  {| title := title m; author := Some v; lastModifiedBy := lastModifiedBy m;
     created := created m; modified := modified m;
     description := description m; subject := subject m;
     customProperties := customProperties m |}.

Definition set_lastModifiedBy {P : Type} (v : string) (m : MetadataFields P)
  : MetadataFields P :=
  {| title := title m; author := author m; lastModifiedBy := Some v;
     created := created m; modified := modified m;
     description := description m; subject := subject m;
     customProperties := customProperties m |}.

Definition set_created {P : Type} (v : JSDate) (m : MetadataFields P)
  : MetadataFields P :=
  {| title := title m; author := author m;
     lastModifiedBy := lastModifiedBy m; created := Some v;
     modified := modified m; description := description m;
     subject := subject m; customProperties := customProperties m |}.

Definition set_modified {P : Type} (v : JSDate) (m : MetadataFields P)
  : MetadataFields P :=
  {| title := title m; author := author m;
     lastModifiedBy := lastModifiedBy m; created := created m;
     modified := Some v; description := description m; subject := subject m;
     customProperties := customProperties m |}.

Definition set_description {P : Type} (v : string) (m : MetadataFields P)
  : MetadataFields P :=
  {| title := title m; author := author m;
     lastModifiedBy := lastModifiedBy m; created := created m;
     modified := modified m; description := Some v; subject := subject m;
     customProperties := customProperties m |}.

Definition set_subject {P : Type} (v : string) (m : MetadataFields P)
  : MetadataFields P :=
  {| title := title m; author := author m;
     lastModifiedBy := lastModifiedBy m; created := created m;
     modified := modified m; description := description m; subject := Some v;
     customProperties := customProperties m |}.

Definition set_customProperties {P : Type} (v : P) (m : MetadataFields P)
  : MetadataFields P :=
  {| title := title m; author := author m;
     lastModifiedBy := lastModifiedBy m; created := created m;
     modified := modified m; description := description m;
     subject := subject m; customProperties := Some v |}.

(** [a || fallback] for a string that may be null: null and the empty
    string are both falsy. *)
Definition orElse (a : option string) (fallback : string) : string :=
  match a with
  | Some s => if JSString.truthy s then s else fallback
  | None => fallback
  end.

(** Truthiness of a string that may be null. *)
Definition present (a : option string) : bool :=
  match a with
  | Some s => JSString.truthy s
  | None => false
  end.

(* ===================================================================== *)
(** ** The type patterns of custom properties                            *)
(* ===================================================================== *)

(** [re.test(tag)] for the four unanchored patterns of
    [parseOOXMLCustomProperties].  Each is an alternation of literals, so
    it matches exactly when one of the literals occurs in the tag. *)
Module Pattern.
Import JSString.

Definition anyOf (literals : list string) (tag : string) : bool :=
  existsb (fun lit => includes lit tag) literals.

(** [/vt:lpwstr|vt:lpstr|vt:bstr/] *)
Definition stringLiterals : list string :=
  ["vt:lpwstr"; "vt:lpstr"; "vt:bstr"].

(** [/vt:bool/] *)
Definition boolLiterals : list string := ["vt:bool"].

(** [/vt:(i[1248]|ui[1248]|int|uint|r4|r8|decimal)/] *)
Definition numberLiterals : list string :=
  ["vt:i1"; "vt:i2"; "vt:i4"; "vt:i8";
   "vt:ui1"; "vt:ui2"; "vt:ui4"; "vt:ui8";
   "vt:int"; "vt:uint"; "vt:r4"; "vt:r8"; "vt:decimal"].

(** [/vt:filetime|vt:date/] *)
Definition dateLiterals : list string := ["vt:filetime"; "vt:date"].

Definition isString : string -> bool := anyOf stringLiterals.
Definition isBool : string -> bool := anyOf boolLiterals.
Definition isNumber : string -> bool := anyOf numberLiterals.
Definition isDate : string -> bool := anyOf dateLiterals.

End Pattern.

(* ===================================================================== *)
(** ** The decoders                                                      *)
(* ===================================================================== *)

Section Decoders.

(** [new DOMParser().parseFromString(xml, "text/xml")]. *)
Variable parseFromString : string -> Node.

(** [new Date(text)]: which texts denote a time is left to the engine. *)
Variable newDate : string -> JSDate.

Definition parseXmlString (xml : string) : Node := parseFromString xml.

(** The statement pair
    [const f = getElementsByTagName(base, tag)[0];
     if (f && f.textContent) metadata.field = convert(f.textContent);] *)
Definition assignField {A M : Type}
    (set : A -> M -> M) (convert : string -> A)
    (base : Node) (tag : string) (metadata : M) : M :=
  match head (getElementsByTagName base tag) with
  | Some f =>
      if JSString.truthy (DOM.textContent f)
      then set (convert (DOM.textContent f)) metadata
      else metadata
  | None => metadata
  end.

(** The if-chain on the value type of a user-defined element. *)
Definition assignUserDefined (customProperties : PropertyMap)
    (name valueType raw : string) : PropertyMap :=
  if String.eqb valueType "boolean" then
    obj_set customProperties name
      (VBoolean (String.eqb (JSString.toLowerCase raw) "true"))
  else if String.eqb valueType "float" then
    let num := Number raw in
    if negb (isNaN num) then obj_set customProperties name (VNumber num)
    else customProperties
  else if String.eqb valueType "date" || String.eqb valueType "time" then
    let date := newDate raw in
    if negb (isInvalid date)
    then obj_set customProperties name (VTimestamp date)
    else obj_set customProperties name (VText raw)
  else
    obj_set customProperties name (VText raw).

(** The body of the loop over [userDefined]. *)
Definition userDefinedStep (customProperties : PropertyMap) (el : Node)
  : PropertyMap :=
  let name := DOM.getAttribute el "meta:name" in
  if negb (present name) || negb (JSString.truthy (DOM.textContent el))
  then customProperties
  else
    let valueType := orElse (DOM.getAttribute el "meta:value-type") "string" in
    let raw := DOM.textContent el in
    assignUserDefined customProperties (default "" name) valueType raw.

Definition parseOfficeMetadata (xmlContent : string) : OfficeMetadata :=
  let xml := parseXmlString xmlContent in
  let metadata : OfficeMetadata := emptyMetadata in
  match head (getElementsByTagName xml "cp:coreProperties") with
  | Some coreProperties =>
      let metadata := assignField set_title id coreProperties "dc:title" metadata in
      let metadata := assignField set_author id coreProperties "dc:creator" metadata in
      let metadata :=
        assignField set_lastModifiedBy id coreProperties "cp:lastModifiedBy" metadata in
      let metadata :=
        assignField set_created newDate coreProperties "dcterms:created" metadata in
      let metadata :=
        assignField set_modified newDate coreProperties "dcterms:modified" metadata in
      let metadata :=
        assignField set_description id coreProperties "dc:description" metadata in
      let metadata := assignField set_subject id coreProperties "dc:subject" metadata in
      metadata
  | None =>
      match head (getElementsByTagName xml "office:meta") with
      | Some officeMeta =>
          let metadata := assignField set_title id officeMeta "dc:title" metadata in
          let metadata := assignField set_author id officeMeta "dc:creator" metadata in
          let metadata :=
            assignField set_description id officeMeta "dc:description" metadata in
          let metadata := assignField set_subject id officeMeta "dc:subject" metadata in
          let metadata :=
            assignField set_created newDate officeMeta "meta:creation-date" metadata in
          let metadata :=
            assignField set_modified newDate officeMeta "dc:date" metadata in
          let userDefined := getElementsByTagName officeMeta "meta:user-defined" in
          if (0 <? length userDefined)%nat then
            let customProperties := foldl userDefinedStep ∅ userDefined in
            if hasKeys customProperties
            then set_customProperties customProperties metadata
            else metadata
          else metadata
      | None => metadata
      end
  end.

(** The if-chain on the value element of a property. *)
Definition assignValue (result : PropertyMap) (name : string) (el : Node)
  : PropertyMap :=
  let tag := orElse (DOM.tagName el) "" in
  let text := DOM.textContent el in
  if Pattern.isString tag then
    obj_set result name (VText text)
  else if Pattern.isBool tag then
    obj_set result name
      (VBoolean (String.eqb (JSString.toLowerCase text) "true"))
  else if Pattern.isNumber tag then
    let num := Number text in
    if negb (isNaN num) then obj_set result name (VNumber num) else result
  else if Pattern.isDate tag then
    let date := newDate text in
    if negb (isInvalid date) then obj_set result name (VTimestamp date)
    else obj_set result name (VText text)
  else if JSString.truthy text then
    obj_set result name (VText text)
  else result.

(** The loop over [prop.childNodes]: non-elements are skipped, the first
    element is decoded and ends the loop. *)
Fixpoint valueLoop (result : PropertyMap) (name : string)
    (children : list Node) : PropertyMap :=
  match children with
  | [] => result
  | child :: rest =>
      if negb (DOM.nodeType child =? 1)%N then valueLoop result name rest
      else assignValue result name child
  end.

(** The body of the loop over [properties]. *)
Definition propertyStep (result : PropertyMap) (prop : Node) : PropertyMap :=
  let name := DOM.getAttribute prop "name" in
  if negb (present name) then result
  else valueLoop result (default "" name) (DOM.childNodes prop).

Definition parseOOXMLCustomProperties (xmlContent : string) : PropertyMap :=
  let xml := parseXmlString xmlContent in
  let result : PropertyMap := ∅ in
  let properties := getElementsByTagName xml "property" in
  foldl propertyStep result properties.

End Decoders.


(* ===================================================================== *)
(** ** The decoders as programs over a heap                              *)
(* ===================================================================== *)

(** The same two functions with the objects they create and mutate kept
    on a heap, so that a call is seen to allocate its result and to leave
    every other object alone. *)
Module Imperative.

(** An object on the heap: a metadata record, whose [customProperties]
    field holds a reference, or a dictionary. *)
Inductive Object : Type :=
| MetadataObject (fields : MetadataFields nat)
| PropertiesObject (own : PropertyMap).

(** The heap lists every object created so far; a reference is an index. *)
Abbreviation Heap := (list Object).

Definition Run (A : Type) : Type := Heap -> A * Heap.

#[export] Instance Run_ret : MRet Run := fun A (a : A) (h : Heap) => (a, h).

#[export] Instance Run_bind : MBind Run :=
  fun A B (k : A -> Run B) (m : Run A) (h : Heap) => let '(a, h') := m h in k a h'.

(** An object literal: the new object gets the next reference. *)
Definition create (o : Object) : Run nat :=
  fun h => (length h, h ++ [o]).

Definition onProperties (f : PropertyMap -> PropertyMap) (o : Object) : Object :=
  match o with
  | PropertiesObject own => PropertiesObject (f own)
  | MetadataObject _ => o
  end.

Definition onMetadata (f : MetadataFields nat -> MetadataFields nat) (o : Object)
  : Object :=
  match o with
  | MetadataObject fields => MetadataObject (f fields)
  | PropertiesObject _ => o
  end.

(** [ref[k] = v] *)
Definition setProperty (ref : nat) (k : string) (v : TypedValue) : Run unit :=
  fun h => (tt, alter (onProperties (fun own => obj_set own k v)) ref h).

(** [ref.field = v] *)
Definition setField {A : Type}
    (set : A -> MetadataFields nat -> MetadataFields nat) (ref : nat) (v : A)
  : Run unit :=
  fun h => (tt, alter (onMetadata (set v)) ref h).

(** [Object.keys(ref).length > 0] *)
Definition anyKeys (ref : nat) : Run bool :=
  fun h =>
    (match h !! ref with
     | Some (PropertiesObject own) => hasKeys own
     | _ => false
     end, h).

(** [for (const x of xs) body(x)] *)
Fixpoint forEach {A : Type} (xs : list A) (body : A -> Run unit) : Run unit :=
  match xs with
  | [] => mret tt
  | x :: rest => body x ;; forEach rest body
  end.

Section Programs.

Variable parseFromString : string -> Node.
Variable newDate : string -> JSDate.

Definition assignField {A : Type}
    (set : A -> MetadataFields nat -> MetadataFields nat)
    (convert : string -> A) (base : Node) (tag : string) (metadata : nat)
  : Run unit :=
  match head (getElementsByTagName base tag) with
  | Some f =>
      if JSString.truthy (DOM.textContent f)
      then setField set metadata (convert (DOM.textContent f))
      else mret tt
  | None => mret tt
  end.

Definition assignUserDefined (customProperties : nat)
    (name valueType raw : string) : Run unit :=
  if String.eqb valueType "boolean" then
    setProperty customProperties name
      (VBoolean (String.eqb (JSString.toLowerCase raw) "true"))
  else if String.eqb valueType "float" then
    let num := Number raw in
    if negb (isNaN num) then setProperty customProperties name (VNumber num)
    else mret tt
  else if String.eqb valueType "date" || String.eqb valueType "time" then
    let date := newDate raw in
    if negb (isInvalid date)
    then setProperty customProperties name (VTimestamp date)
    else setProperty customProperties name (VText raw)
  else
    setProperty customProperties name (VText raw).

Definition userDefinedStep (customProperties : nat) (el : Node) : Run unit :=
  let name := DOM.getAttribute el "meta:name" in
  if negb (present name) || negb (JSString.truthy (DOM.textContent el))
  then mret tt
  else
    let valueType := orElse (DOM.getAttribute el "meta:value-type") "string" in
    let raw := DOM.textContent el in
    assignUserDefined customProperties (default "" name) valueType raw.

Definition parseOfficeMetadata (xmlContent : string) : Run nat :=
  let xml := parseFromString xmlContent in
  metadata ← create (MetadataObject emptyMetadata);
  match head (getElementsByTagName xml "cp:coreProperties") with
  | Some coreProperties =>
      assignField set_title id coreProperties "dc:title" metadata;;
      assignField set_author id coreProperties "dc:creator" metadata;;
      assignField set_lastModifiedBy id coreProperties "cp:lastModifiedBy" metadata;;
      assignField set_created newDate coreProperties "dcterms:created" metadata;;
      assignField set_modified newDate coreProperties "dcterms:modified" metadata;;
      assignField set_description id coreProperties "dc:description" metadata;;
      assignField set_subject id coreProperties "dc:subject" metadata;;
      mret metadata
  | None =>
      match head (getElementsByTagName xml "office:meta") with
      | Some officeMeta =>
          assignField set_title id officeMeta "dc:title" metadata;;
          assignField set_author id officeMeta "dc:creator" metadata;;
          assignField set_description id officeMeta "dc:description" metadata;;
          assignField set_subject id officeMeta "dc:subject" metadata;;
          assignField set_created newDate officeMeta "meta:creation-date" metadata;;
          assignField set_modified newDate officeMeta "dc:date" metadata;;
          let userDefined := getElementsByTagName officeMeta "meta:user-defined" in
          (if (0 <? length userDefined)%nat then
             customProperties ← create (PropertiesObject ∅);
             forEach userDefined (userDefinedStep customProperties);;
             keys ← anyKeys customProperties;
             if (keys : bool)
             then setField set_customProperties metadata customProperties
             else mret tt
           else mret tt);;
          mret metadata
      | None => mret metadata
      end
  end.

Definition assignValue (result : nat) (name : string) (el : Node) : Run unit :=
  let tag := orElse (DOM.tagName el) "" in
  let text := DOM.textContent el in
  if Pattern.isString tag then
    setProperty result name (VText text)
  else if Pattern.isBool tag then
    setProperty result name
      (VBoolean (String.eqb (JSString.toLowerCase text) "true"))
  else if Pattern.isNumber tag then
    let num := Number text in
    if negb (isNaN num) then setProperty result name (VNumber num)
    else mret tt
  else if Pattern.isDate tag then
    let date := newDate text in
    if negb (isInvalid date) then setProperty result name (VTimestamp date)
    else setProperty result name (VText text)
  else if JSString.truthy text then
    setProperty result name (VText text)
  else mret tt.

Fixpoint valueLoop (result : nat) (name : string) (children : list Node)
  : Run unit :=
  match children with
  | [] => mret tt
  | child :: rest =>
      if negb (DOM.nodeType child =? 1)%N then valueLoop result name rest
      else assignValue result name child
  end.

Definition propertyStep (result : nat) (prop : Node) : Run unit :=
  let name := DOM.getAttribute prop "name" in
  if negb (present name) then mret tt
  else valueLoop result (default "" name) (DOM.childNodes prop).

Definition parseOOXMLCustomProperties (xmlContent : string) : Run nat :=
  let xml := parseFromString xmlContent in
  result ← create (PropertiesObject ∅);
  let properties := getElementsByTagName xml "property" in
  forEach properties (propertyStep result);;
  mret result.

End Programs.

(** The dictionary a reference denotes. *)
Definition readProperties (h : Heap) (ref : nat) : option PropertyMap :=
  match h !! ref with
  | Some (PropertiesObject own) => Some own
  | _ => None
  end.

(** The metadata value a reference denotes: the record with the
    dictionary in place of the reference to it. *)
Definition readMetadata (h : Heap) (ref : nat) : option OfficeMetadata :=
  match h !! ref with
  | Some (MetadataObject m) =>
      let value (custom : option PropertyMap) : OfficeMetadata :=
        mkMetadata (title m) (author m) (lastModifiedBy m) (created m)
                   (modified m) (description m) (subject m) custom in
      match customProperties m with
      | None => Some (value None)
      | Some ref' => (fun own => value (Some own)) <$> readProperties h ref'
      end
  | _ => None
  end.

End Imperative.

(* ===================================================================== *)
(** ** Notions used to state the properties                              *)
(* ===================================================================== *)

(** [Below n base]: the node [n] occurs somewhere strictly inside [base]. *)
Inductive Below : Node -> Node -> Prop :=
| below_child n base :
    In n (DOM.childNodes base) -> Below n base
| below_deeper n c base :
    In c (DOM.childNodes base) -> Below n c -> Below n base.

(** Element names accepted by the XML parser are qualified names: a local
    name with at most one prefix, hence at most one colon. *)
Definition qualifiedName (tag : string) : Prop :=
  JSString.count ":" tag <= 1.

(** Case-insensitive comparison with the literal [true]. *)
Definition isTrueIgnoringCase (s : string) : bool :=
  match s with
  | String a (String b (String c (String d EmptyString))) =>
      (Ascii.eqb a "t" || Ascii.eqb a "T")
      && (Ascii.eqb b "r" || Ascii.eqb b "R")
      && (Ascii.eqb c "u" || Ascii.eqb c "U")
      && (Ascii.eqb d "e" || Ascii.eqb d "E")
  | _ => false
  end.

(** The first element child of a node, the value element of a property. *)
Definition firstElementChild (n : Node) : option Node :=
  List.find DOM.isElement (DOM.childNodes n).

(** The text a field is read from: the text content of the first [tag]
    element inside [base], when there is one and it is not empty. *)
Definition firstText (base : Node) (tag : string) : option string :=
  match head (getElementsByTagName base tag) with
  | Some f =>
      if JSString.truthy (DOM.textContent f) then Some (DOM.textContent f)
      else None
  | None => None
  end.

(** The dictionary the ODF branch builds from the user-defined elements
    inside its marker. *)
Definition userDefinedMap (newDate : string -> JSDate) (officeMeta : Node)
  : PropertyMap :=
  foldl (userDefinedStep newDate) ∅
    (getElementsByTagName officeMeta "meta:user-defined").

(** The literals of the four patterns without their common prefix. *)
Definition stringStems : list string := ["lpwstr"; "lpstr"; "bstr"].
Definition boolStems : list string := ["bool"].
Definition numberStems : list string :=
  ["i1"; "i2"; "i4"; "i8"; "ui1"; "ui2"; "ui4"; "ui8";
   "int"; "uint"; "r4"; "r8"; "decimal"].
Definition dateStems : list string := ["filetime"; "date"].

(** The number of nodes of a tree, the node itself included. *)
Fixpoint nodeCount (n : Node) : nat :=
  S (match n with
     | Document cs | Element _ _ cs =>
         (fix total (l : list Node) : nat :=
            match l with
            | [] => 0
            | c :: l' => nodeCount c + total l'
            end) cs
     | _ => 0
     end).

(** A value that is what its type says: a number other than NaN, a date
    with a time value. *)
Definition wellFormed (v : TypedValue) : bool :=
  match v with
  | VNumber n => negb (isNaN n)
  | VTimestamp d => negb (isInvalid d)
  | VText _ | VBoolean _ => true
  end.

(** The scalar fields of the record. *)
Inductive Field : Type :=
| Title | Author | LastModifiedBy | Created | Modified | Description | Subject.

(** [field in metadata] *)
Definition isSet (f : Field) (r : OfficeMetadata) : bool :=
  match f with
  | Title => bool_decide (is_Some (title r))
  | Author => bool_decide (is_Some (author r))
  | LastModifiedBy => bool_decide (is_Some (lastModifiedBy r))
  | Created => bool_decide (is_Some (created r))
  | Modified => bool_decide (is_Some (modified r))
  | Description => bool_decide (is_Some (description r))
  | Subject => bool_decide (is_Some (subject r))
  end.

(** The tag each field is read from in the core-properties branch. *)
Definition coreTag (f : Field) : string :=
  match f with
  | Title => "dc:title"
  | Author => "dc:creator"
  | LastModifiedBy => "cp:lastModifiedBy"
  | Created => "dcterms:created"
  | Modified => "dcterms:modified"
  | Description => "dc:description"
  | Subject => "dc:subject"
  end.

(** The tag each field is read from in the ODF branch, which reads no
    [lastModifiedBy]. *)
Definition odfTag (f : Field) : option string :=
  match f with
  | Title => Some "dc:title"
  | Author => Some "dc:creator"
  | LastModifiedBy => None
  | Created => Some "meta:creation-date"
  | Modified => Some "dc:date"
  | Description => Some "dc:description"
  | Subject => Some "dc:subject"
  end.

(* ===================================================================== *)
(** ** Sample documents and a sample engine                              *)
(* ===================================================================== *)

Module Samples.

(** A [Date] constructor that recognises UTC date-times written
    [YYYY-MM-DDTHH:MM:SSZ] and nothing else. *)
Module Engine.

Definition number (s : string) : option Z :=
  match StringToNumber.digits 10 s 0%N 0 with
  | (v, S _, EmptyString) => Some (Z.of_N v)
  | _ => None
  end.

Definition daysFromCivil (y m d : Z) : Z :=
  let y := (if m <=? 2 then y - 1 else y)%Z in
  let era := (y / 400)%Z in
  let yoe := (y - era * 400)%Z in
  let mp := (if m <=? 2 then m + 9 else m - 3)%Z in
  let doy := ((153 * mp + 2) / 5 + d - 1)%Z in
  let doe := (yoe * 365 + yoe / 4 - yoe / 100 + doy)%Z in
  (era * 146097 + doe - 719468)%Z.

Definition daysInMonth (y m : Z) : Z :=
  if (m =? 2)%Z then
    if ((y mod 4 =? 0) && (negb (y mod 100 =? 0) || (y mod 400 =? 0)))%Z
    then 29%Z else 28%Z
  else if ((m =? 4) || (m =? 6) || (m =? 9) || (m =? 11))%Z then 30%Z
  else 31%Z.

Definition separators (s : string) : bool :=
  String.eqb (String.substring 4 1 s) "-"
  && String.eqb (String.substring 7 1 s) "-"
  && String.eqb (String.substring 10 1 s) "T"
  && String.eqb (String.substring 13 1 s) ":"
  && String.eqb (String.substring 16 1 s) ":"
  && String.eqb (String.substring 19 1 s) "Z".

Definition newDate (s : string) : JSDate :=
  if negb ((String.length s =? 20)%nat && separators s) then InvalidDate
  else
    match number (String.substring 0 4 s), number (String.substring 5 2 s),
          number (String.substring 8 2 s), number (String.substring 11 2 s),
          number (String.substring 14 2 s), number (String.substring 17 2 s)
    with
    | Some y, Some m, Some d, Some h, Some mi, Some sec =>
        if ((1 <=? m) && (m <=? 12) && (1 <=? d)
            && (d <=? daysInMonth y m)
            && (h <=? 23) && (mi <=? 59) && (sec <=? 59))%Z
        then TimeValue
               ((((daysFromCivil y m d * 24 + h) * 60 + mi) * 60 + sec)
                * 1000)%Z
        else InvalidDate
    | _, _, _, _, _, _ => InvalidDate
    end.


End Engine.

Definition element (tag : string) (text : string) : Node :=
  Element tag [] [Text text].

(** A start tag as it is written in a text: the attributes of the tree
    and of the text are the same list. *)
Definition startTag (tag : string) (attributes : list (string * string))
  : string :=
  "<" +:+ tag
  +:+ List.fold_right
        (fun a rest => " " +:+ fst a +:+ "='" +:+ snd a +:+ "'" +:+ rest)
        "" attributes
  +:+ ">".

(** The namespace declarations of the three kinds of part. *)
Definition coreNamespaces : list (string * string) :=
  [("xmlns:cp",
    "http://schemas.openxmlformats.org/package/2006/metadata/core-properties");
   ("xmlns:dc", "http://purl.org/dc/elements/1.1/");
   ("xmlns:dcterms", "http://purl.org/dc/terms/")].

Definition odfNamespaces : list (string * string) :=
  [("xmlns:office", "urn:oasis:names:tc:opendocument:xmlns:office:1.0");
   ("xmlns:meta", "urn:oasis:names:tc:opendocument:xmlns:meta:1.0");
   ("xmlns:dc", "http://purl.org/dc/elements/1.1/")].

Definition customNamespaces : list (string * string) :=
  [("xmlns",
    "http://schemas.openxmlformats.org/officeDocument/2006/custom-properties");
   ("xmlns:vt",
    "http://schemas.openxmlformats.org/officeDocument/2006/docPropsVTypes")].

(** A core-properties part that also carries an ODF block. *)
Definition coreXml : string :=
  startTag "cp:coreProperties" coreNamespaces
  +:+ "<dc:title>Annual Report</dc:title>"
  +:+ "<dc:creator>John Smith</dc:creator>"
  +:+ "<dcterms:created>2024-01-15T10:30:00Z</dcterms:created>"
  +:+ "<dcterms:modified>yesterday</dcterms:modified>"
  +:+ startTag "office:meta" odfNamespaces
  +:+ "<dc:date>2024-01-15T10:30:00Z</dc:date>"
  +:+ "<meta:user-defined meta:name='k'>v</meta:user-defined>"
  +:+ "</office:meta></cp:coreProperties>".

Definition coreMarker : Node :=
  Element "cp:coreProperties" coreNamespaces
    [element "dc:title" "Annual Report";
     element "dc:creator" "John Smith";
     element "dcterms:created" "2024-01-15T10:30:00Z";
     element "dcterms:modified" "yesterday";
     Element "office:meta" odfNamespaces
       [element "dc:date" "2024-01-15T10:30:00Z";
        Element "meta:user-defined" [("meta:name", "k")] [Text "v"]]].

Definition coreTree : Node := Document [coreMarker].

(** An ODF meta part with user-defined properties of every type. *)
Definition odfXml : string :=
  startTag "office:document-meta" odfNamespaces
  +:+ "<office:meta><dc:title>Notes</dc:title>"
  +:+ "<meta:creation-date>last week</meta:creation-date>"
  +:+ "<dc:date>2024-01-15T10:30:00Z</dc:date>"
  +:+ "<meta:user-defined meta:name='flag' meta:value-type='boolean'>no"
  +:+ "</meta:user-defined>"
  +:+ "<meta:user-defined meta:name='ratio' meta:value-type='float'>abc"
  +:+ "</meta:user-defined>"
  +:+ "<meta:user-defined meta:name='due' meta:value-type='date'>not-a-date"
  +:+ "</meta:user-defined>"
  +:+ "<meta:user-defined meta:value-type='string'>anonymous"
  +:+ "</meta:user-defined>"
  +:+ "<meta:user-defined meta:name='blank'></meta:user-defined>"
  +:+ "</office:meta></office:document-meta>".

Definition odfFlag : Node :=
  Element "meta:user-defined"
    [("meta:name", "flag"); ("meta:value-type", "boolean")] [Text "no"].

Definition odfRatio : Node :=
  Element "meta:user-defined"
    [("meta:name", "ratio"); ("meta:value-type", "float")] [Text "abc"].

Definition odfDue : Node :=
  Element "meta:user-defined"
    [("meta:name", "due"); ("meta:value-type", "date")] [Text "not-a-date"].

Definition odfAnonymous : Node :=
  Element "meta:user-defined" [("meta:value-type", "string")]
    [Text "anonymous"].

Definition odfBlank : Node :=
  Element "meta:user-defined" [("meta:name", "blank")] [].

Definition odfMeta : Node :=
  Element "office:meta" []
    [element "dc:title" "Notes";
     element "meta:creation-date" "last week";
     element "dc:date" "2024-01-15T10:30:00Z";
     odfFlag; odfRatio; odfDue; odfAnonymous; odfBlank].

Definition odfTree : Node :=
  Document [Element "office:document-meta" odfNamespaces [odfMeta]].

(** An ODF meta part whose only user-defined property is a date without
    text. *)
Definition odfEmptyDateXml : string :=
  startTag "office:meta" odfNamespaces
  +:+ "<meta:user-defined meta:name='d' meta:value-type='date'>"
  +:+ "</meta:user-defined></office:meta>".

Definition odfEmptyDate : Node :=
  Element "meta:user-defined"
    [("meta:name", "d"); ("meta:value-type", "date")] [].

Definition odfEmptyDateMeta : Node :=
  Element "office:meta" odfNamespaces [odfEmptyDate].

Definition odfEmptyDateTree : Node := Document [odfEmptyDateMeta].

(** An ODF meta part whose only user-defined property is named
    [__proto__]. *)
Definition odfProtoXml : string :=
  startTag "office:meta" odfNamespaces
  +:+ "<meta:user-defined meta:name='__proto__'>x</meta:user-defined>"
  +:+ "</office:meta>".

Definition odfProto : Node :=
  Element "meta:user-defined" [("meta:name", "__proto__")] [Text "x"].

Definition odfProtoMeta : Node :=
  Element "office:meta" odfNamespaces [odfProto].

Definition odfProtoTree : Node := Document [odfProtoMeta].

(** A custom-properties part. *)
Definition customXml : string :=
  startTag "Properties" customNamespaces
  +:+ "<property pid='2' name='Department'>"
  +:+ "<vt:lpwstr>Engineering</vt:lpwstr></property>"
  +:+ "<property pid='3' name='Reviewed'> <vt:bool>no</vt:bool></property>"
  +:+ "<property pid='4' name='Priority'><vt:i4> </vt:i4></property>"
  +:+ "<property pid='5' name='Due'><vt:filetime>not-a-date</vt:filetime>"
  +:+ "</property><property pid='6' name='Score'><vt:r8>abc</vt:r8>"
  +:+ "</property></Properties>".

Definition property (pid name : string) (children : list Node) : Node :=
  Element "property" [("pid", pid); ("name", name)] children.

Definition customReviewed : Node :=
  property "3" "Reviewed" [Text " "; element "vt:bool" "no"].

Definition customPriority : Node :=
  property "4" "Priority" [element "vt:i4" " "].

Definition customDue : Node :=
  property "5" "Due" [element "vt:filetime" "not-a-date"].

Definition customScore : Node :=
  property "6" "Score" [element "vt:r8" "abc"].

Definition customTree : Node :=
  Document
    [Element "Properties" customNamespaces
       [property "2" "Department" [element "vt:lpwstr" "Engineering"];
        customReviewed; customPriority; customDue; customScore]].

(** Two properties of one name, the later one not numeric. *)
Definition duplicateXml : string :=
  startTag "Properties" customNamespaces
  +:+ "<property pid='2' name='a'><vt:lpwstr>x</vt:lpwstr></property>"
  +:+ "<property pid='3' name='a'><vt:r8>abc</vt:r8></property>"
  +:+ "</Properties>".

Definition duplicateFirst : Node :=
  property "2" "a" [element "vt:lpwstr" "x"].

Definition duplicateSecond : Node :=
  property "3" "a" [element "vt:r8" "abc"].

Definition duplicateTree : Node :=
  Document
    [Element "Properties" customNamespaces [duplicateFirst; duplicateSecond]].

(** Properties named [__proto__]. *)
Definition protoXml : string :=
  startTag "Properties" customNamespaces
  +:+ "<property pid='2' name='__proto__'>"
  +:+ "<vt:lpwstr>first</vt:lpwstr></property>"
  +:+ "<property pid='3' name='__proto__'>"
  +:+ "<vt:lpwstr>second</vt:lpwstr></property>"
  +:+ "<property pid='4' name='n'><vt:i4>1</vt:i4></property>"
  +:+ "</Properties>".

Definition protoSecond : Node :=
  property "3" "__proto__" [element "vt:lpwstr" "second"].

Definition protoTree : Node :=
  Document
    [Element "Properties" customNamespaces
       [property "2" "__proto__" [element "vt:lpwstr" "first"];
        protoSecond;
        property "4" "n" [element "vt:i4" "1"]]].

(** A numeric property without text named [__proto__]. *)
Definition protoNumberXml : string :=
  startTag "Properties" customNamespaces
  +:+ "<property pid='2' name='__proto__'><vt:i4></vt:i4></property>"
  +:+ "</Properties>".

Definition protoNumber : Node :=
  property "2" "__proto__" [Element "vt:i4" [] []].

Definition protoNumberTree : Node :=
  Document [Element "Properties" customNamespaces [protoNumber]].

(** XML that is neither dialect. *)
Definition unrelatedXml : string :=
  "<html><head><title>Hello</title></head><body><!-- nothing -->"
  +:+ "<p>text</p></body></html>".

Definition unrelatedTree : Node :=
  Document
    [Element "html" []
       [Element "head" [] [element "title" "Hello"];
        Element "body" [] [Comment " nothing "; element "p" "text"]]].

(** The parser on the sample texts; any other text is taken as one the
    parser makes nothing of. *)
Definition parser (xml : string) : Node :=
  let table :=
    [(coreXml, coreTree); (odfXml, odfTree);
     (odfEmptyDateXml, odfEmptyDateTree); (odfProtoXml, odfProtoTree);
     (customXml, customTree); (duplicateXml, duplicateTree);
     (protoXml, protoTree); (protoNumberXml, protoNumberTree);
     (unrelatedXml, unrelatedTree)] in
  match List.find (fun entry => String.eqb (fst entry) xml) table with
  | Some entry => snd entry
  | None => Document []
  end.

End Samples.

(** Further documents, for the edges of the two decoders. *)
Module Cases.
Import Samples.

(** A core-properties part whose first title is empty. *)
Definition shadowedXml : string :=
  startTag "cp:coreProperties" coreNamespaces
  +:+ "<dc:title></dc:title><dc:title>Real</dc:title>"
  +:+ "</cp:coreProperties>".

Definition shadowedMarker : Node :=
  Element "cp:coreProperties" coreNamespaces
    [Element "dc:title" [] []; element "dc:title" "Real"].

Definition shadowedTree : Node := Document [shadowedMarker].

(** An ODF meta part that carries an element of the other dialect and
    user-defined properties of several value types. *)
Definition odfTypedNamespaces : list (string * string) :=
  odfNamespaces
  ++ [("xmlns:cp",
       "http://schemas.openxmlformats.org/package/2006/metadata/core-properties")].

Definition odfTypedXml : string :=
  startTag "office:meta" odfTypedNamespaces
  +:+ "<cp:lastModifiedBy>Ann</cp:lastModifiedBy>"
  +:+ "<dc:creator>Bob</dc:creator>"
  +:+ "<meta:user-defined meta:name='ratio' meta:value-type='float'>1.5"
  +:+ "</meta:user-defined>"
  +:+ "<meta:user-defined meta:name='due' meta:value-type='date'>"
  +:+ "2024-01-15T10:30:00Z</meta:user-defined>"
  +:+ "<meta:user-defined meta:name='price' meta:value-type='currency'>12"
  +:+ "</meta:user-defined>"
  +:+ "<meta:user-defined meta:name='plain'>text</meta:user-defined>"
  +:+ "</office:meta>".

Definition odfTypedRatio : Node :=
  Element "meta:user-defined"
    [("meta:name", "ratio"); ("meta:value-type", "float")] [Text "1.5"].

Definition odfTypedDue : Node :=
  Element "meta:user-defined"
    [("meta:name", "due"); ("meta:value-type", "date")]
    [Text "2024-01-15T10:30:00Z"].

Definition odfTypedPrice : Node :=
  Element "meta:user-defined"
    [("meta:name", "price"); ("meta:value-type", "currency")] [Text "12"].

Definition odfTypedPlain : Node :=
  Element "meta:user-defined" [("meta:name", "plain")] [Text "text"].

Definition odfTypedMeta : Node :=
  Element "office:meta" odfTypedNamespaces
    [element "cp:lastModifiedBy" "Ann"; element "dc:creator" "Bob";
     odfTypedRatio; odfTypedDue; odfTypedPrice; odfTypedPlain].

Definition odfTypedTree : Node := Document [odfTypedMeta].

(** An ODF meta part whose only user-defined property is a Boolean
    without text. *)
Definition odfEmptyBooleanXml : string :=
  startTag "office:meta" odfNamespaces
  +:+ "<meta:user-defined meta:name='done' meta:value-type='boolean'>"
  +:+ "</meta:user-defined></office:meta>".

Definition odfEmptyBoolean : Node :=
  Element "meta:user-defined"
    [("meta:name", "done"); ("meta:value-type", "boolean")] [].

Definition odfEmptyBooleanMeta : Node :=
  Element "office:meta" odfNamespaces [odfEmptyBoolean].

Definition odfEmptyBooleanTree : Node := Document [odfEmptyBooleanMeta].

(** A custom-properties part with values of every kind: a property with
    two value elements after white space, a number, a date, a type the
    decoder does not know with and without text, and an empty string. *)
Definition typedXml : string :=
  startTag "Properties" customNamespaces
  +:+ "<property pid='2' name='first'> <vt:lpwstr>x</vt:lpwstr>"
  +:+ "<vt:i4>1</vt:i4></property>"
  +:+ "<property pid='3' name='count'><vt:i4>42</vt:i4></property>"
  +:+ "<property pid='4' name='when'>"
  +:+ "<vt:filetime>2024-01-15T10:30:00Z</vt:filetime></property>"
  +:+ "<property pid='5' name='blob'><vt:blob>AAEC</vt:blob></property>"
  +:+ "<property pid='6' name='void'><vt:empty></vt:empty></property>"
  +:+ "<property pid='7' name='none'><vt:lpwstr></vt:lpwstr></property>"
  +:+ "</Properties>".

Definition typedFirst : Node :=
  property "2" "first"
    [Text " "; element "vt:lpwstr" "x"; element "vt:i4" "1"].

Definition typedCount : Node :=
  property "3" "count" [element "vt:i4" "42"].

Definition typedWhen : Node :=
  property "4" "when" [element "vt:filetime" "2024-01-15T10:30:00Z"].

Definition typedBlob : Node :=
  property "5" "blob" [element "vt:blob" "AAEC"].

Definition typedVoid : Node :=
  property "6" "void" [Element "vt:empty" [] []].

Definition typedNone : Node :=
  property "7" "none" [Element "vt:lpwstr" [] []].

Definition typedTree : Node :=
  Document
    [Element "Properties" customNamespaces
       [typedFirst; typedCount; typedWhen; typedBlob; typedVoid; typedNone]].

(** The parser on these texts and on the earlier samples. *)
Definition parser (xml : string) : Node :=
  let table :=
    [(shadowedXml, shadowedTree); (odfTypedXml, odfTypedTree);
     (odfEmptyBooleanXml, odfEmptyBooleanTree); (typedXml, typedTree)] in
  match List.find (fun entry => String.eqb (fst entry) xml) table with
  | Some entry => snd entry
  | None => Samples.parser xml
  end.

End Cases.

(* ===================================================================== *)
(** ** Sample evaluations                                                *)
(* ===================================================================== *)

Example Number_samples :
  Number "42" = Finite false 42 0 /\ Number " -1.50e3 " = Finite true 150 1
  /\ Number "0x1F" = Finite false 31 0 /\ Number ".5" = Finite false 5 (-1)
  /\ Number "5." = Finite false 5 0 /\ Number "-Infinity" = Infinity true
  /\ Number "abc" = NaN /\ Number "." = NaN /\ Number "1e" = NaN
  /\ Number "12px" = NaN /\ Number "-0x10" = NaN /\ Number "1 2" = NaN
  /\ Number "" = zero /\ Number "   " = zero.
Proof. repeat split; reflexivity. Qed.


Example newDate_samples :
  Samples.Engine.newDate "1970-01-01T00:00:00Z" = TimeValue 0
  /\ Samples.Engine.newDate "2024-01-15T10:30:00Z" = TimeValue 1705314600000
  /\ Samples.Engine.newDate "2024-02-29T23:59:59Z" = TimeValue 1709251199000
  /\ Samples.Engine.newDate "2023-02-29T00:00:00Z" = InvalidDate
  /\ Samples.Engine.newDate "not-a-date" = InvalidDate
  /\ Samples.Engine.newDate "" = InvalidDate.
Proof. repeat split; reflexivity. Qed.

(* ===================================================================== *)
(** ** Facts about objects used as dictionaries                          *)
(* ===================================================================== *)

Section ObjectFacts.
Implicit Types (o : PropertyMap) (k : string) (v : TypedValue).

Lemma obj_set_proto o v : obj_set o "__proto__" v = o.
Proof. reflexivity. Qed.

Lemma obj_set_regular o k v : k ≠ "__proto__" -> obj_set o k v = <[k := v]> o.
Proof.
  intros Hk. unfold obj_set.
  destruct (String.eqb_spec k "__proto__"); [contradiction | reflexivity].
Qed.


Lemma obj_set_lookup_ne o k v j : k ≠ j -> obj_set o k v !! j = o !! j.
Proof.
  intros Hkj. unfold obj_set. destruct (String.eqb k "__proto__"); [done |].
  by apply lookup_insert_ne.
Qed.

(** An assignment is a left-biased union with what it does to [{}]. *)
Lemma obj_set_union o k v : obj_set o k v = obj_set ∅ k v ∪ o.
Proof.
  unfold obj_set. destruct (String.eqb k "__proto__").
  - by rewrite (left_id_L ∅ (∪)).
  - by rewrite insert_empty, insert_union_singleton_l.
Qed.

Lemma hasKeys_true o : hasKeys o = true <-> o ≠ ∅.
Proof.
  unfold hasKeys. rewrite negb_true_iff, bool_decide_eq_false. tauto.
Qed.

Lemma hasKeys_false o : hasKeys o = false <-> o = ∅.
Proof.
  unfold hasKeys. rewrite negb_false_iff, bool_decide_eq_true. tauto.
Qed.
End ObjectFacts.

(** A loop [for (x of xs) body(o, x)] whose body only ever assigns
    properties that depend on [x] alone. *)
Section AssignmentLoops.
Context {X : Type} (body : PropertyMap -> X -> PropertyMap).

(** The body acts on any object as it acts on [{}], on top of what the
    object already holds. *)
Hypothesis body_union : forall o x, body o x = body ∅ x ∪ o.

(** The body never creates the own property [__proto__]. *)
Hypothesis body_proto : forall x, body ∅ x !! "__proto__" = None.

Lemma loop_snoc o xs x : foldl body o (xs ++ [x]) = body ∅ x ∪ foldl body o xs.
Proof. rewrite foldl_app. simpl. apply body_union. Qed.

Lemma loop_lookup_step o x k :
  body o x !! k = match body ∅ x !! k with Some v => Some v | None => o !! k end.
Proof.
  rewrite body_union. destruct (body ∅ x !! k) as [v|] eqn:E.
  - by apply lookup_union_Some_l.
  - by rewrite lookup_union_r.
Qed.

(** Elements that assign nothing under [k] leave [k] as it was. *)
Lemma loop_lookup_untouched xs : forall o k,
  Forall (fun x => body ∅ x !! k = None) xs ->
  foldl body o xs !! k = o !! k.
Proof.
  induction xs as [|x xs IH]; intros o k Hall; [done |].
  inversion Hall as [|? ? Hx Hxs]; subst. simpl.
  rewrite IH by done. rewrite loop_lookup_step. by rewrite Hx.
Qed.

(** The last element that assigns under [k] decides the final value. *)
Lemma loop_lookup_last o before x after k v :
  body ∅ x !! k = Some v ->
  Forall (fun y => body ∅ y !! k = None) after ->
  foldl body o (before ++ x :: after) !! k = Some v.
Proof.
  intros Hx Hafter. rewrite foldl_app. simpl.
  rewrite loop_lookup_untouched by done.
  rewrite loop_lookup_step. by rewrite Hx.
Qed.

(** A key, once present, stays present. *)
Lemma loop_lookup_mono xs : forall o k,
  is_Some (o !! k) -> is_Some (foldl body o xs !! k).
Proof.
  induction xs as [|x xs IH]; intros o k Hk; [done |].
  simpl. apply IH. rewrite loop_lookup_step.
  destruct (body ∅ x !! k); [eauto | done].
Qed.

Lemma loop_lookup_present o xs x k :
  In x xs -> is_Some (body ∅ x !! k) -> is_Some (foldl body o xs !! k).
Proof.
  intros Hin Hx. apply in_split in Hin as (before & after & ->).
  rewrite foldl_app. simpl. apply loop_lookup_mono.
  rewrite loop_lookup_step. destruct Hx as [v ->]. eauto.
Qed.

(** Conversely a key of the result was assigned by some element or was
    there from the start. *)
Lemma loop_lookup_origin xs : forall o k v,
  foldl body o xs !! k = Some v ->
  o !! k = Some v \/ exists x, In x xs /\ body ∅ x !! k = Some v.
Proof.
  induction xs as [|x xs IH]; intros o k v Hk; [by left |].
  simpl in Hk. apply IH in Hk as [Hk | (y & Hy & Hv)].
  - rewrite loop_lookup_step in Hk.
    destruct (body ∅ x !! k) as [w|] eqn:E.
    + right. exists x. split; [by left | congruence].
    + by left.
  - right. exists y. split; [by right | done].
Qed.

Lemma loop_proto xs o :
  o !! "__proto__" = None -> foldl body o xs !! "__proto__" = None.
Proof.
  intros Ho. rewrite loop_lookup_untouched; [done |].
  apply Forall_forall. intros x _. apply body_proto.
Qed.

(** The loop leaves [{}] empty exactly when no element assigns. *)
Lemma loop_empty xs :
  foldl body ∅ xs = ∅ <-> Forall (fun x => body ∅ x = ∅) xs.
Proof.
  split.
  - intros He. apply Forall_forall. intros x Hx. apply map_eq. intros k.
    rewrite lookup_empty. destruct (body ∅ x !! k) as [v|] eqn:E; [|done].
    assert (is_Some (foldl body ∅ xs !! k)) as [w Hw].
    { eapply loop_lookup_present; [apply list_elem_of_In, Hx | eauto]. }
    rewrite He, lookup_empty in Hw. done.
  - intros Hall. apply map_eq. intros k.
    rewrite loop_lookup_untouched; [done |].
    eapply Forall_impl; [apply Hall |]. simpl. intros x ->.
    apply lookup_empty.
Qed.
End AssignmentLoops.

Lemma obj_set_lookup_proto (o : PropertyMap) k v :
  o !! "__proto__" = None -> obj_set o k v !! "__proto__" = None.
Proof.
  intros Ho. unfold obj_set. destruct (String.eqb_spec k "__proto__"); [done |].
  by rewrite lookup_insert_ne.
Qed.

(** Both loop bodies of the module are assignment loops. *)
Section LoopBodies.
Variable newDate : string -> JSDate.

Local Ltac branches :=
  repeat match goal with
    | |- context [if ?b then _ else _] => destruct b
    end.

Local Ltac assigned :=
  solve [ symmetry; apply (left_id_L ∅ (∪)) | apply obj_set_union ].

Local Ltac unassigned :=
  solve [ apply lookup_empty
        | apply obj_set_lookup_proto, lookup_empty ].

Lemma userDefinedStep_union o el :
  userDefinedStep newDate o el = userDefinedStep newDate ∅ el ∪ o.
Proof. unfold userDefinedStep, assignUserDefined. branches; assigned. Qed.

Lemma userDefinedStep_proto el :
  userDefinedStep newDate ∅ el !! "__proto__" = None.
Proof. unfold userDefinedStep, assignUserDefined. branches; unassigned. Qed.

Lemma assignValue_union o name el :
  assignValue newDate o name el = assignValue newDate ∅ name el ∪ o.
Proof. unfold assignValue. branches; assigned. Qed.

Lemma assignValue_proto name el :
  assignValue newDate ∅ name el !! "__proto__" = None.
Proof. unfold assignValue. branches; unassigned. Qed.

Lemma valueLoop_union o name children :
  valueLoop newDate o name children = valueLoop newDate ∅ name children ∪ o.
Proof.
  induction children as [|child rest IH]; simpl.
  - symmetry. apply (left_id_L ∅ (∪)).
  - destruct (negb _); [apply IH | apply assignValue_union].
Qed.

Lemma valueLoop_proto name children :
  valueLoop newDate ∅ name children !! "__proto__" = None.
Proof.
  induction children as [|child rest IH]; simpl; [apply lookup_empty |].
  destruct (negb _); [apply IH | apply assignValue_proto].
Qed.

Lemma propertyStep_union o prop :
  propertyStep newDate o prop = propertyStep newDate ∅ prop ∪ o.
Proof.
  unfold propertyStep. destruct (negb _).
  - symmetry. apply (left_id_L ∅ (∪)).
  - apply valueLoop_union.
Qed.

Lemma propertyStep_proto prop :
  propertyStep newDate ∅ prop !! "__proto__" = None.
Proof.
  unfold propertyStep. destruct (negb _);
    [apply lookup_empty | apply valueLoop_proto].
Qed.

(** The inner loop decodes the first element child, if there is one. *)
Lemma valueLoop_first o name children :
  valueLoop newDate o name children =
    match List.find DOM.isElement children with
    | Some el => assignValue newDate o name el
    | None => o
    end.
Proof.
  induction children as [|child rest IH]; simpl; [done |].
  unfold DOM.isElement at 1. destruct (DOM.nodeType child =? 1)%N; simpl; done.
Qed.

(** An assignment only ever happens under the element's own name. *)
Lemma userDefinedStep_other_key el k :
  DOM.getAttribute el "meta:name" ≠ Some k ->
  userDefinedStep newDate ∅ el !! k = None.
Proof.
  intros Hk. unfold userDefinedStep, assignUserDefined.
  destruct (DOM.getAttribute el "meta:name") as [n|]; simpl; [|done].
  assert (n ≠ k) by congruence.
  branches; first [ apply lookup_empty
                  | rewrite obj_set_lookup_ne by done; apply lookup_empty ].
Qed.

Lemma propertyStep_other_key prop k :
  DOM.getAttribute prop "name" ≠ Some k ->
  propertyStep newDate ∅ prop !! k = None.
Proof.
  intros Hk. unfold propertyStep.
  destruct (DOM.getAttribute prop "name") as [n|]; simpl; [|done].
  assert (n ≠ k) by congruence.
  destruct (negb _); [apply lookup_empty |].
  rewrite valueLoop_first. destruct (List.find _ _); [|apply lookup_empty].
  unfold assignValue.
  branches; first [ apply lookup_empty
                  | rewrite obj_set_lookup_ne by done; apply lookup_empty ].
Qed.
End LoopBodies.

(* ===================================================================== *)
(** ** Facts about the tree queries                                      *)
(* ===================================================================== *)


Lemma Below_leaf n base : DOM.childNodes base = [] -> ~ Below n base.
Proof. intros Hcs HB. inversion HB; subst; rewrite Hcs in *; contradiction. Qed.

Lemma subtree_In m : forall n, In n (DOM.subtree m) <-> n = m \/ Below n m.
Proof.
  assert (inner : forall cs, List.Forall
            (fun c => forall n, In n (DOM.subtree c) <-> n = c \/ Below n c) cs ->
          forall base n, DOM.childNodes base = cs ->
            In n (flat_map DOM.subtree cs) <-> Below n base).
  { intros cs IH base n Hcs. rewrite List.Forall_forall in IH.
    rewrite in_flat_map. split.
    - intros (c & Hc & Hn). apply IH in Hn as [-> | Hn]; [| |exact Hc].
      + apply below_child. by rewrite Hcs.
      + eapply below_deeper; [by rewrite Hcs | exact Hn].
    - intros HB. inversion HB as [? ? Hin | ? c ? Hc Hn]; subst.
      + exists n. split; [done |]. apply IH; [done | by left].
      + exists c. split; [done |]. apply IH; [done | by right]. }
  induction m as [cs IH | t a cs IH | d | d | d | t d] using Node_ind;
    intros n; simpl;
    [ rewrite (inner cs IH (Document cs) n eq_refl); intuition congruence
    | rewrite (inner cs IH (Element t a cs) n eq_refl); intuition congruence
    | split; [intros [H | []]; auto
             | intros [H | H]; [auto | by apply Below_leaf in H]] .. ].
Qed.

Lemma descendants_In base n : In n (DOM.descendants base) <-> Below n base.
Proof.
  unfold DOM.descendants. rewrite in_flat_map. split.
  - intros (c & Hc & Hn). apply subtree_In in Hn as [-> | Hn].
    + by apply below_child.
    + by eapply below_deeper.
  - intros HB. inversion HB as [? ? Hin | ? c ? Hc Hn]; subst.
    + exists n. split; [done |]. apply subtree_In. by left.
    + exists c. split; [done |]. apply subtree_In. by right.
Qed.

Lemma hasTagName_named name e :
  name ≠ "*" -> DOM.hasTagName name e = true <-> DOM.tagName e = Some name.
Proof.
  intros Hstar. destruct e; simpl; try (split; discriminate).
  destruct (String.eqb_spec name "*"); [contradiction |]. simpl.
  rewrite String.eqb_eq. split; congruence.
Qed.

(** The query returns exactly the elements of that name inside [base]. *)
Lemma getElementsByTagName_In base name e :
  name ≠ "*" ->
  In e (getElementsByTagName base name)
  <-> Below e base /\ DOM.tagName e = Some name.
Proof.
  intros Hstar. unfold getElementsByTagName, DOM.getElementsByTagName.
  rewrite List.filter_In, descendants_In, hasTagName_named by done. tauto.
Qed.

Lemma getElementsByTagName_none base name :
  name ≠ "*" ->
  (forall e, Below e base -> DOM.tagName e ≠ Some name) ->
  getElementsByTagName base name = [].
Proof.
  intros Hstar Hno.
  destruct (getElementsByTagName base name) as [|e rest] eqn:E; [done |].
  assert (In e (getElementsByTagName base name)) as Hin by (rewrite E; by left).
  apply getElementsByTagName_In in Hin as [HB Ht]; [|done].
  by apply Hno in HB.
Qed.

Lemma getElementsByTagName_some base name e :
  name ≠ "*" -> Below e base -> DOM.tagName e = Some name ->
  exists first, head (getElementsByTagName base name) = Some first
                /\ Below first base /\ DOM.tagName first = Some name.
Proof.
  intros Hstar HB Ht.
  assert (In e (getElementsByTagName base name)) as Hin
    by (by apply getElementsByTagName_In).
  destruct (getElementsByTagName base name) as [|first rest] eqn:E;
    [destruct Hin |].
  exists first. split; [done |].
  apply getElementsByTagName_In; [done |]. rewrite E. by left.
Qed.

(* ===================================================================== *)
(** ** Facts about strings, patterns and [Number]                        *)
(* ===================================================================== *)

Module StringFacts.
Import JSString.

Lemma append_nil_l s : "" +:+ s = s.
Proof. reflexivity. Qed.

Lemma append_cons c a b : String c a +:+ b = String c (a +:+ b).
Proof. reflexivity. Qed.

Lemma prefix_inv p : forall s,
  String.prefix p s = true -> exists post, s = p +:+ post.
Proof.
  induction p as [|c p IH]; intros s Hp; [by exists s |].
  destruct s as [|d s]; simpl in Hp; [discriminate |].
  destruct (Ascii.ascii_dec c d) as [-> | ]; [|discriminate].
  apply IH in Hp as [post ->]. by exists post.
Qed.

Lemma includes_inv p : forall s,
  includes p s = true -> exists pre post, s = pre +:+ p +:+ post.
Proof.
  induction s as [|c s IH]; intros Hi.
  - change (String.prefix p "" || false = true) in Hi.
    rewrite orb_false_r in Hi. apply prefix_inv in Hi as [post ->].
    by exists "", post.
  - change (String.prefix p (String c s) || includes p s = true) in Hi.
    apply orb_true_iff in Hi as [Hp | Hi].
    + apply prefix_inv in Hp as [post Hp]. by exists "", post.
    + apply IH in Hi as (pre & post & ->). by exists (String c pre), post.
Qed.

Lemma count_app c a b : count c (a +:+ b) = count c a + count c b.
Proof.
  induction a as [|d a IH]; [done |].
  rewrite append_cons. simpl. rewrite IH. lia.
Qed.

(** A string splits in one way only around its first colon. *)
Lemma split_at_colon pre1 : forall pre2 x1 x2,
  pre1 +:+ String ":" x1 = pre2 +:+ String ":" x2 ->
  count ":" pre1 = 0 -> count ":" pre2 = 0 -> x1 = x2.
Proof.
  induction pre1 as [|c pre1 IH]; intros [|d pre2] x1 x2 Heq H1 H2;
    rewrite ?append_nil_l, ?append_cons in Heq.
  - congruence.
  - injection Heq as <- _. simpl in H2. discriminate.
  - injection Heq as -> _. simpl in H1. discriminate.
  - injection Heq as <- Heq. apply (IH pre2); [done | |].
    + destruct (Ascii.eqb ":" c); simpl in *; lia.
    + destruct (Ascii.eqb ":" c); simpl in *; lia.
Qed.

Lemma app_comparable a : forall b c d,
  a +:+ b = c +:+ d -> String.prefix a c || String.prefix c a = true.
Proof.
  induction a as [|x a IH]; intros b [|y c] d Heq;
    rewrite ?append_nil_l, ?append_cons in Heq; simpl; try done.
  injection Heq as -> Heq. destruct (Ascii.ascii_dec y y); [|done].
  by apply (IH b c d).
Qed.

(** In a tag with a single colon the prefix [vt:] can occur at one place
    only, so two literals found after it start the same remainder. *)
Lemma vt_same_position t p q :
  count ":" t <= 1 ->
  includes ("vt:" +:+ p) t = true -> includes ("vt:" +:+ q) t = true ->
  String.prefix p q || String.prefix q p = true.
Proof.
  intros Hone Hp Hq.
  apply includes_inv in Hp as (pre1 & post1 & E1).
  apply includes_inv in Hq as (pre2 & post2 & E2).
  assert (R : forall pre r post, pre +:+ ("vt:" +:+ r) +:+ post
              = (pre +:+ "vt") +:+ String ":" (r +:+ post)).
  { intros pre r post. induction pre as [|c pre IH]; [done |].
    change (String c (pre +:+ ("vt:" +:+ r) +:+ post)
            = String c ((pre +:+ "vt") +:+ String ":" (r +:+ post))).
    by rewrite IH. }
  rewrite R in E1, E2.
  assert (C : forall pre x, t = pre +:+ String ":" x -> count ":" pre = 0).
  { intros pre x ->. rewrite count_app in Hone. simpl in Hone. lia. }
  apply (app_comparable p post1 q post2).
  eapply split_at_colon; [rewrite <- E1; exact E2 | |]; eapply C; eauto.
Qed.

Lemma toLowerCase_true_chars (a : ascii) :
  (Ascii.eqb (lowerChar a) "t" = Ascii.eqb a "t" || Ascii.eqb a "T")
  /\ (Ascii.eqb (lowerChar a) "r" = Ascii.eqb a "r" || Ascii.eqb a "R")
  /\ (Ascii.eqb (lowerChar a) "u" = Ascii.eqb a "u" || Ascii.eqb a "U")
  /\ (Ascii.eqb (lowerChar a) "e" = Ascii.eqb a "e" || Ascii.eqb a "E").
Proof.
  destruct a as [[] [] [] [] [] [] [] []]; vm_compute; auto.
Qed.

Lemma allWhiteSpace_trim s : allWhiteSpace s = true -> trim s = "".
Proof.
  unfold trim. induction s as [|c s IH]; simpl; [done |].
  intros [Hc Hs]%andb_true_iff. rewrite Hc. by apply IH.
Qed.

End StringFacts.



Lemma toLowerCase_true s :
  String.eqb (JSString.toLowerCase s) "true" = isTrueIgnoringCase s.
Proof.
  destruct s as [|a [|b [|c [|d [|e s]]]]]; simpl;
    repeat match goal with
      | |- context [Ascii.eqb (JSString.lowerChar ?x) _] =>
          let Ht := fresh in let Hr := fresh in
          let Hu := fresh in let He := fresh in
          pose proof (StringFacts.toLowerCase_true_chars x) as (Ht & Hr & Hu & He);
          rewrite ?Ht, ?Hr, ?Hu, ?He; clear Ht Hr Hu He
      end;
    repeat match goal with
      | |- context [Ascii.eqb ?x ?y] => destruct (Ascii.eqb x y)
      end;
    reflexivity.
Qed.

(** Empty and whitespace-only text converts to the number 0. *)
Lemma Number_whitespace text :
  JSString.allWhiteSpace text = true -> Number text = zero.
Proof.
  intros Hws. unfold Number, StringToNumber.parse.
  by rewrite StringFacts.allWhiteSpace_trim.
Qed.

Section PatternFacts.
Import Pattern.

(** Two families of [vt:] literals can only match the same qualified
    name when one literal continues another. *)
Lemma families_clash tag stems1 stems2 :
  qualifiedName tag ->
  anyOf (List.map (String.append "vt:") stems1) tag = true ->
  anyOf (List.map (String.append "vt:") stems2) tag = true ->
  existsb (fun p => existsb (fun q => String.prefix p q || String.prefix q p)
                            stems2) stems1 = true.
Proof.
  unfold anyOf. rewrite !existsb_exists.
  intros Hq (l1 & [p [<- Hp]]%in_map_iff & H1)
            (l2 & [q [<- Hq2]]%in_map_iff & H2).
  exists p. split; [done |]. apply existsb_exists. exists q. split; [done |].
  by apply (StringFacts.vt_same_position tag).
Qed.

Local Ltac exclusive H1 H2 s1 s2 :=
  match goal with
  | |- ?b = false =>
      destruct b eqn:E; [exfalso | reflexivity];
      pose proof (families_clash _ s1 s2 H1 H2 E) as Hclash;
      vm_compute in Hclash; discriminate
  end.


Lemma bool_not_string tag :
  qualifiedName tag -> isBool tag = true -> isString tag = false.
Proof. intros Hq Hb. exclusive Hq Hb boolStems stringStems. Qed.

Lemma number_not_string tag :
  qualifiedName tag -> isNumber tag = true -> isString tag = false.
Proof. intros Hq Hb. exclusive Hq Hb numberStems stringStems. Qed.

Lemma number_not_bool tag :
  qualifiedName tag -> isNumber tag = true -> isBool tag = false.
Proof. intros Hq Hb. exclusive Hq Hb numberStems boolStems. Qed.

Lemma date_not_string tag :
  qualifiedName tag -> isDate tag = true -> isString tag = false.
Proof. intros Hq Hb. exclusive Hq Hb dateStems stringStems. Qed.

Lemma date_not_bool tag :
  qualifiedName tag -> isDate tag = true -> isBool tag = false.
Proof. intros Hq Hb. exclusive Hq Hb dateStems boolStems. Qed.

Lemma date_not_number tag :
  qualifiedName tag -> isDate tag = true -> isNumber tag = false.
Proof. intros Hq Hb. exclusive Hq Hb dateStems numberStems. Qed.

(** Every literal of the number pattern is a qualified name matching the
    number pattern only. *)
Lemma numberLiterals_number tag :
  In tag numberLiterals ->
  qualifiedName tag /\ isNumber tag = true
  /\ isString tag = false /\ isBool tag = false.
Proof.
  intros Hin. simpl in Hin.
  repeat destruct Hin as [<- | Hin]; try contradiction;
    (split; [unfold qualifiedName; simpl; lia | by vm_compute]).
Qed.
End PatternFacts.

(* ===================================================================== *)
(** ** The standard fields                                               *)
(* ===================================================================== *)


Lemma assignField_firstText {A M : Type} (set : A -> M -> M)
    (convert : string -> A) base tag (m : M) :
  assignField set convert base tag m =
    match firstText base tag with
    | Some text => set (convert text) m
    | None => m
    end.
Proof.
  unfold assignField, firstText.
  destruct (head _) as [f|]; [|done]. by destruct (JSString.truthy _).
Qed.

Lemma firstText_found base tag f :
  head (getElementsByTagName base tag) = Some f ->
  JSString.truthy (DOM.textContent f) = true ->
  firstText base tag = Some (DOM.textContent f).
Proof. intros Hf Ht. unfold firstText. by rewrite Hf, Ht. Qed.

Section Dialects.
Variable parse : string -> Node.
Variable newDate : string -> JSDate.

(** The record the core-properties branch builds from its marker. *)
Lemma core_branch xmlContent cp :
  head (getElementsByTagName (parse xmlContent) "cp:coreProperties") = Some cp ->
  parseOfficeMetadata parse newDate xmlContent =
    {| title := firstText cp "dc:title";
       author := firstText cp "dc:creator";
       lastModifiedBy := firstText cp "cp:lastModifiedBy";
       created := newDate <$> firstText cp "dcterms:created";
       modified := newDate <$> firstText cp "dcterms:modified";
       description := firstText cp "dc:description";
       subject := firstText cp "dc:subject";
       customProperties := None |}.
Proof.
  intros Hcp. unfold parseOfficeMetadata, parseXmlString. rewrite Hcp.
  rewrite !assignField_firstText.
  destruct (firstText cp "dc:title"), (firstText cp "dc:creator"),
    (firstText cp "cp:lastModifiedBy"), (firstText cp "dcterms:created"),
    (firstText cp "dcterms:modified"), (firstText cp "dc:description"),
    (firstText cp "dc:subject"); reflexivity.
Qed.


(** The record the ODF branch builds from its marker. *)
Lemma odf_branch xmlContent officeMeta :
  head (getElementsByTagName (parse xmlContent) "cp:coreProperties") = None ->
  head (getElementsByTagName (parse xmlContent) "office:meta") = Some officeMeta ->
  parseOfficeMetadata parse newDate xmlContent =
    {| title := firstText officeMeta "dc:title";
       author := firstText officeMeta "dc:creator";
       lastModifiedBy := None;
       created := newDate <$> firstText officeMeta "meta:creation-date";
       modified := newDate <$> firstText officeMeta "dc:date";
       description := firstText officeMeta "dc:description";
       subject := firstText officeMeta "dc:subject";
       customProperties :=
         if hasKeys (userDefinedMap newDate officeMeta)
         then Some (userDefinedMap newDate officeMeta) else None |}.
Proof.
  intros Hcp Hmeta. unfold parseOfficeMetadata, parseXmlString.
  rewrite Hcp, Hmeta. rewrite !assignField_firstText.
  fold (userDefinedMap newDate officeMeta).
  assert (Hnone :
    (0 <? length (getElementsByTagName officeMeta "meta:user-defined"))%nat
    = false ->
    hasKeys (userDefinedMap newDate officeMeta) = false).
  { intros Hlen. unfold userDefinedMap.
    destruct (getElementsByTagName officeMeta "meta:user-defined"); [done |].
    discriminate. }
  destruct (firstText officeMeta "dc:title"), (firstText officeMeta "dc:creator"),
    (firstText officeMeta "dc:description"), (firstText officeMeta "dc:subject"),
    (firstText officeMeta "meta:creation-date"), (firstText officeMeta "dc:date");
    simpl;
    (destruct (0 <? length _)%nat;
     [destruct (hasKeys _); reflexivity | by rewrite Hnone]).
Qed.

Lemma no_marker_branch xmlContent :
  head (getElementsByTagName (parse xmlContent) "cp:coreProperties") = None ->
  head (getElementsByTagName (parse xmlContent) "office:meta") = None ->
  parseOfficeMetadata parse newDate xmlContent = emptyMetadata.
Proof.
  intros Hcp Hmeta. unfold parseOfficeMetadata, parseXmlString.
  by rewrite Hcp, Hmeta.
Qed.
End Dialects.

(** A tree holds no element of a name when the query for it is empty. *)
Lemma no_element_named base name :
  name ≠ "*" -> getElementsByTagName base name = [] ->
  forall e, Below e base -> DOM.tagName e ≠ Some name.
Proof.
  intros Hstar Hnil e HB Ht.
  assert (In e (getElementsByTagName base name)) as Hin
    by (by apply getElementsByTagName_In).
  by rewrite Hnil in Hin.
Qed.

(* ===================================================================== *)
(** ** The programs compute the values                                   *)
(* ===================================================================== *)

Section Refinement.

Variable parse : string -> Node.
Variable newDate : string -> JSDate.

Lemma alter_last (f : Imperative.Object -> Imperative.Object)
    (h : Imperative.Heap) (o : Imperative.Object) :
  alter f (length h) (h ++ [o]) = h ++ [f o].
Proof.
  rewrite <- (Nat.add_0_r (length h)) at 1. by rewrite alter_app_r.
Qed.

Lemma lookup_last (h : Imperative.Heap) (o : Imperative.Object)
    (rest : Imperative.Heap) :
  (h ++ o :: rest) !! length h = Some o.
Proof. apply list_lookup_middle. reflexivity. Qed.

Lemma alter_onProperties_id ref (h : Imperative.Heap) :
  alter (Imperative.onProperties (fun own => own)) ref h = h.
Proof. apply list_alter_id. by intros []. Qed.

Lemma alter_onMetadata_id ref (h : Imperative.Heap) :
  alter (Imperative.onMetadata (fun m => m)) ref h = h.
Proof. apply list_alter_id. by intros []. Qed.

Local Ltac branches :=
  repeat match goal with
    | |- context [if ?b then _ else _] => destruct b
    end.

Local Ltac stepped :=
  solve [ reflexivity
        | cbv [mret Imperative.Run_ret]; by rewrite alter_onProperties_id ].

Lemma userDefinedStep_run ref el (h : Imperative.Heap) :
  Imperative.userDefinedStep newDate ref el h =
    (tt, alter (Imperative.onProperties (fun own => userDefinedStep newDate own el))
               ref h).
Proof.
  unfold Imperative.userDefinedStep, userDefinedStep,
    Imperative.assignUserDefined, assignUserDefined.
  branches; stepped.
Qed.

Lemma assignValue_run ref name el (h : Imperative.Heap) :
  Imperative.assignValue newDate ref name el h =
    (tt, alter (Imperative.onProperties (fun own => assignValue newDate own name el))
               ref h).
Proof. unfold Imperative.assignValue, assignValue. branches; stepped. Qed.

Lemma valueLoop_run ref name children (h : Imperative.Heap) :
  Imperative.valueLoop newDate ref name children h =
    (tt, alter (Imperative.onProperties (fun own => valueLoop newDate own name children))
               ref h).
Proof.
  induction children as [|child rest IH]; simpl.
  - stepped.
  - destruct (negb _); [apply IH | apply assignValue_run].
Qed.

Lemma propertyStep_run ref prop (h : Imperative.Heap) :
  Imperative.propertyStep newDate ref prop h =
    (tt, alter (Imperative.onProperties (fun own => propertyStep newDate own prop))
               ref h).
Proof.
  unfold Imperative.propertyStep, propertyStep.
  destruct (negb _); [stepped | apply valueLoop_run].
Qed.

(** A loop of the program folds its body over the dictionary it was
    given. *)
Lemma forEach_run {X : Type} (program : X -> Imperative.Run unit)
    (body : PropertyMap -> X -> PropertyMap) ref :
  (forall x h, program x h
               = (tt, alter (Imperative.onProperties (fun own => body own x)) ref h)) ->
  forall xs (h : Imperative.Heap),
    Imperative.forEach xs program h
    = (tt, alter (Imperative.onProperties (fun own => foldl body own xs)) ref h).
Proof.
  intros Hbody. induction xs as [|x xs IH]; intros h; simpl.
  - stepped.
  - cbv [mbind Imperative.Run_bind]. rewrite Hbody, IH, list_alter_alter_eq.
    f_equal. apply list_alter_ext; [|done]. by intros [].
Qed.

Lemma assignField_run {A : Type}
    (set : A -> MetadataFields nat -> MetadataFields nat)
    (convert : string -> A) base tag ref (h : Imperative.Heap) :
  Imperative.assignField set convert base tag ref h =
    (tt, alter (Imperative.onMetadata (assignField set convert base tag)) ref h).
Proof.
  unfold Imperative.assignField, assignField.
  destruct (head _) as [f|]; [destruct (JSString.truthy _) |];
    first [ reflexivity
          | cbv [mret Imperative.Run_ret]; by rewrite alter_onMetadata_id ].
Qed.

(** A call of the custom-properties decoder adds one object to the heap,
    the dictionary the function computes, and returns the reference to
    it. *)
Lemma parseOOXMLCustomProperties_run xmlContent (h : Imperative.Heap) :
  Imperative.parseOOXMLCustomProperties parse newDate xmlContent h =
    (length h,
     h ++ [Imperative.PropertiesObject
             (parseOOXMLCustomProperties parse newDate xmlContent)]).
Proof.
  unfold Imperative.parseOOXMLCustomProperties, parseOOXMLCustomProperties.
  cbv [mbind Imperative.Run_bind Imperative.create mret Imperative.Run_ret].
  rewrite (forEach_run _ (propertyStep newDate) (length h))
    by (intros; apply propertyStep_run).
  by rewrite alter_last.
Qed.

Lemma readProperties_app (h more : Imperative.Heap) ref own :
  Imperative.readProperties h ref = Some own ->
  Imperative.readProperties (h ++ more) ref = Some own.
Proof.
  unfold Imperative.readProperties. intros Hr.
  destruct (h !! ref) as [o|] eqn:E; [|done].
  by rewrite (lookup_app_l_Some _ _ _ _ E).
Qed.

(** What a reference denotes does not change when the heap grows. *)
Lemma readMetadata_app (h more : Imperative.Heap) ref m :
  Imperative.readMetadata h ref = Some m ->
  Imperative.readMetadata (h ++ more) ref = Some m.
Proof.
  unfold Imperative.readMetadata. intros Hr.
  destruct (h !! ref) as [o|] eqn:E; [|done].
  rewrite (lookup_app_l_Some _ _ _ _ E). destruct o as [fields|]; [|done].
  destruct (customProperties fields) as [ref'|]; [|done].
  destruct (Imperative.readProperties h ref') as [own|] eqn:E'; [|done].
  by rewrite (readProperties_app _ _ _ _ E').
Qed.

(** A call of the metadata decoder adds its objects to the heap and
    returns a reference that denotes the record the function computes. *)
Lemma parseOfficeMetadata_run xmlContent (h : Imperative.Heap) :
  exists objects,
    Imperative.parseOfficeMetadata parse newDate xmlContent h
    = (length h, h ++ objects)
    /\ Imperative.readMetadata (h ++ objects) (length h)
       = Some (parseOfficeMetadata parse newDate xmlContent).
Proof.
  unfold Imperative.parseOfficeMetadata.
  cbv [mbind Imperative.Run_bind Imperative.create mret Imperative.Run_ret].
  destruct (head (getElementsByTagName (parse xmlContent) "cp:coreProperties"))
    as [cp|] eqn:Hcp.
  - repeat (rewrite assignField_run; cbv beta iota).
    rewrite !alter_last. simpl Imperative.onMetadata.
    eexists. split; [reflexivity |].
    unfold Imperative.readMetadata. rewrite lookup_last.
    rewrite (core_branch _ _ _ _ Hcp), !assignField_firstText.
    destruct (firstText cp "dc:title"), (firstText cp "dc:creator"),
      (firstText cp "cp:lastModifiedBy"), (firstText cp "dcterms:created"),
      (firstText cp "dcterms:modified"), (firstText cp "dc:description"),
      (firstText cp "dc:subject"); reflexivity.
  - destruct (head (getElementsByTagName (parse xmlContent) "office:meta"))
      as [officeMeta|] eqn:Hmeta.
    + repeat (rewrite assignField_run; cbv beta iota).
      rewrite !alter_last. simpl Imperative.onMetadata.
      rewrite (odf_branch _ _ _ _ Hcp Hmeta). unfold userDefinedMap.
      match goal with
      | |- context [Imperative.MetadataObject ?m] => set (fields := m)
      end.
      assert (Hfields :
        forall (custom : option PropertyMap) (ref : nat),
          customProperties (set_customProperties (P:=nat) ref fields) = Some ref
          /\ customProperties fields = None
          /\ mkMetadata (title fields) (author fields) (lastModifiedBy fields)
               (created fields) (modified fields) (description fields)
               (subject fields) custom
             = {| title := firstText officeMeta "dc:title";
                  author := firstText officeMeta "dc:creator";
                  lastModifiedBy := None;
                  created := newDate <$> firstText officeMeta "meta:creation-date";
                  modified := newDate <$> firstText officeMeta "dc:date";
                  description := firstText officeMeta "dc:description";
                  subject := firstText officeMeta "dc:subject";
                  customProperties := custom |}).
      { intros custom ref. subst fields. rewrite !assignField_firstText.
        destruct (firstText officeMeta "dc:title"),
          (firstText officeMeta "dc:creator"),
          (firstText officeMeta "dc:description"),
          (firstText officeMeta "dc:subject"),
          (firstText officeMeta "meta:creation-date"),
          (firstText officeMeta "dc:date"); repeat split; reflexivity. }
      clearbody fields.
      destruct (getElementsByTagName officeMeta "meta:user-defined")
        as [|el els] eqn:Hud.
      * simpl. exists [Imperative.MetadataObject fields]. split; [done |].
        unfold Imperative.readMetadata. rewrite lookup_last.
        destruct (Hfields None 0) as (_ & -> & ->). reflexivity.
      * change (0 <? length (el :: els))%nat with true. cbv beta iota.
        set (custom := length (h ++ [Imperative.MetadataObject fields])).
        rewrite (forEach_run _ (userDefinedStep newDate) custom)
          by (intros; apply userDefinedStep_run).
        subst custom.
        rewrite alter_last. cbv [Imperative.onProperties].
        unfold Imperative.anyKeys. rewrite lookup_last.
        set (own := foldl (userDefinedStep newDate) ∅ (el :: els)).
        destruct (hasKeys own) eqn:Hkeys; cbv beta iota.
        -- exists [Imperative.MetadataObject
                     (set_customProperties
                        (length (h ++ [Imperative.MetadataObject fields]))
                        fields);
                   Imperative.PropertiesObject own].
           unfold Imperative.setField.
           rewrite alter_app_l by (rewrite length_app; simpl; lia).
           rewrite alter_last. simpl Imperative.onMetadata.
           rewrite <- app_assoc. split; [done |].
           unfold Imperative.readMetadata. rewrite lookup_last.
           destruct (Hfields (Some own)
                       (length (h ++ [Imperative.MetadataObject fields])))
             as (-> & _ & <-).
           unfold Imperative.readProperties.
           match goal with
           | |- context [(h ++ [?a; ?b]) !! _] =>
               replace (h ++ [a; b]) with ((h ++ [a]) ++ [b])
                 by (by rewrite <- app_assoc)
           end.
           rewrite list_lookup_middle by (by rewrite !length_app).
           reflexivity.
        -- exists [Imperative.MetadataObject fields; Imperative.PropertiesObject own].
           rewrite <- app_assoc. split; [done |].
           unfold Imperative.readMetadata. rewrite lookup_last.
           destruct (Hfields None 0) as (_ & -> & ->). reflexivity.
    + exists [Imperative.MetadataObject emptyMetadata]. split; [done |].
      unfold Imperative.readMetadata. rewrite lookup_last.
      by rewrite (no_marker_branch _ _ _ Hcp Hmeta).
Qed.

End Refinement.

(* ===================================================================== *)
(** ** The decoders on the samples                                       *)
(* ===================================================================== *)

Example customXml_decoded :
  parseOOXMLCustomProperties Samples.parser Samples.Engine.newDate
    Samples.customXml
  = <["Department" := VText "Engineering"]>
      (<["Reviewed" := VBoolean false]>
         (<["Priority" := VNumber zero]>
            {["Due" := VText "not-a-date"]})).
Proof. reflexivity. Qed.

Example odfXml_decoded :
  parseOfficeMetadata Samples.parser Samples.Engine.newDate Samples.odfXml
  = {| title := Some "Notes";
       author := None;
       lastModifiedBy := None;
       created := Some InvalidDate;
       modified := Some (TimeValue 1705314600000);
       description := None;
       subject := None;
       customProperties :=
         Some (<["flag" := VBoolean false]> {["due" := VText "not-a-date"]}) |}.
Proof. reflexivity. Qed.

Example programs_on_samples :
  Imperative.parseOfficeMetadata Samples.parser Samples.Engine.newDate
    Samples.odfXml []
  = (0, [Imperative.MetadataObject
           {| title := Some "Notes";
              author := None;
              lastModifiedBy := None;
              created := Some InvalidDate;
              modified := Some (TimeValue 1705314600000);
              description := None;
              subject := None;
              customProperties := Some 1 |};
         Imperative.PropertiesObject
           (<["flag" := VBoolean false]> {["due" := VText "not-a-date"]})])
  /\ Imperative.parseOfficeMetadata Samples.parser Samples.Engine.newDate
       Samples.odfProtoXml []
     = (0, [Imperative.MetadataObject emptyMetadata;
            Imperative.PropertiesObject ∅]).
Proof. split; reflexivity. Qed.

(* ===================================================================== *)
(** ** Dialect detection                                                 *)
(* ===================================================================== *)

(** C1.  When an element named [cp:coreProperties] occurs anywhere in the
    parsed tree, [parseOfficeMetadata] decodes by the core-properties
    branch alone: every field is read from inside the first such element
    under its core-properties tag ([dc:title], [dc:creator],
    [cp:lastModifiedBy], [dcterms:created], [dcterms:modified],
    [dc:description], [dc:subject]), nothing is read from [office:meta],
    [meta:creation-date], [dc:date] or [meta:user-defined], and the record
    carries no [customProperties]. *)
Theorem core_properties_take_precedence
    (parse : string -> Node) (newDate : string -> JSDate)
    (xmlContent : string) (e : Node) :
  Below e (parse xmlContent) ->
  DOM.tagName e = Some "cp:coreProperties" ->
  exists cp,
    head (getElementsByTagName (parse xmlContent) "cp:coreProperties") = Some cp
    /\ parseOfficeMetadata parse newDate xmlContent =
       {| title := firstText cp "dc:title";
          author := firstText cp "dc:creator";
          lastModifiedBy := firstText cp "cp:lastModifiedBy";
          created := newDate <$> firstText cp "dcterms:created";
          modified := newDate <$> firstText cp "dcterms:modified";
          description := firstText cp "dc:description";
          subject := firstText cp "dc:subject";
          customProperties := None |}.
Proof.
  intros HB Htag.
  destruct (getElementsByTagName_some (parse xmlContent) "cp:coreProperties" e)
    as (cp & Hcp & _); [done | done | done |].
  exists cp. split; [done |]. by apply core_branch.
Qed.

Lemma core_properties_take_precedence_witness :
  parseOfficeMetadata Samples.parser Samples.Engine.newDate Samples.coreXml =
    {| title := Some "Annual Report";
       author := Some "John Smith";
       lastModifiedBy := None;
       created := Some (TimeValue 1705314600000);
       modified := Some InvalidDate;
       description := None;
       subject := None;
       customProperties := None |}.
Proof.
  destruct (core_properties_take_precedence
              Samples.parser Samples.Engine.newDate Samples.coreXml
              Samples.coreMarker)
    as (cp & Hcp & ->).
  - apply below_child. left. reflexivity.
  - reflexivity.
  - vm_compute in Hcp. injection Hcp as <-. vm_compute. reflexivity.
Defined.

(** C9.  When the parsed tree holds neither a [cp:coreProperties] element
    nor an [office:meta] element, [parseOfficeMetadata] returns the record
    with every field absent, as an ordinary result. *)
Theorem no_marker_gives_empty_record
    (parse : string -> Node) (newDate : string -> JSDate)
    (xmlContent : string) :
  (forall e, Below e (parse xmlContent) ->
             DOM.tagName e ≠ Some "cp:coreProperties"
             /\ DOM.tagName e ≠ Some "office:meta") ->
  parseOfficeMetadata parse newDate xmlContent = emptyMetadata.
Proof.
  intros Hnone. apply no_marker_branch.
  - rewrite getElementsByTagName_none; [done | done |].
    intros e HB. by apply Hnone.
  - rewrite getElementsByTagName_none; [done | done |].
    intros e HB. by apply Hnone.
Qed.

Lemma no_marker_gives_empty_record_witness :
  parseOfficeMetadata Samples.parser Samples.Engine.newDate Samples.unrelatedXml
  = emptyMetadata
  /\ parseOfficeMetadata Samples.parser Samples.Engine.newDate "<<not xml"
     = emptyMetadata.
Proof.
  split; apply no_marker_gives_empty_record; intros e HB;
    (split; eapply no_element_named; [| |exact HB| | |exact HB]);
    first [ discriminate | reflexivity ].
Defined.

(** C6.  In both branches the [created] and [modified] fields receive
    whatever [new Date] makes of the element's text, with no check of the
    result: as soon as the text is not empty the field is set to that
    date, an invalid one included. *)
Theorem scalar_timestamps_are_not_validated
    (parse : string -> Node) (newDate : string -> JSDate)
    (xmlContent : string) (marker f : Node) :
  JSString.truthy (DOM.textContent f) = true ->
  let xml := parse xmlContent in
  let r := parseOfficeMetadata parse newDate xmlContent in
  let parsed := newDate (DOM.textContent f) in
  (head (getElementsByTagName xml "cp:coreProperties") = Some marker ->
   (head (getElementsByTagName marker "dcterms:created") = Some f ->
    created r = Some parsed)
   /\ (head (getElementsByTagName marker "dcterms:modified") = Some f ->
       modified r = Some parsed))
  /\ (head (getElementsByTagName xml "cp:coreProperties") = None ->
      head (getElementsByTagName xml "office:meta") = Some marker ->
      (head (getElementsByTagName marker "meta:creation-date") = Some f ->
       created r = Some parsed)
      /\ (head (getElementsByTagName marker "dc:date") = Some f ->
          modified r = Some parsed)).
Proof.
  intros Htext xml r parsed. subst xml r parsed. split.
  - intros Hcp. rewrite (core_branch _ _ _ _ Hcp). simpl.
    split; intros Hf; by rewrite (firstText_found _ _ _ Hf Htext).
  - intros Hcp Hmeta. rewrite (odf_branch _ _ _ _ Hcp Hmeta). simpl.
    split; intros Hf; by rewrite (firstText_found _ _ _ Hf Htext).
Qed.

Lemma scalar_timestamps_are_not_validated_witness :
  modified (parseOfficeMetadata Samples.parser Samples.Engine.newDate
              Samples.coreXml) = Some InvalidDate
  /\ created (parseOfficeMetadata Samples.parser Samples.Engine.newDate
                Samples.odfXml) = Some InvalidDate.
Proof.
  split.
  - destruct (scalar_timestamps_are_not_validated
                Samples.parser Samples.Engine.newDate Samples.coreXml
                Samples.coreMarker
                (Samples.element "dcterms:modified" "yesterday"))
      as [Hcore _]; [reflexivity |].
    destruct Hcore as [_ Hmodified]; [reflexivity |].
    apply Hmodified. reflexivity.
  - destruct (scalar_timestamps_are_not_validated
                Samples.parser Samples.Engine.newDate Samples.odfXml
                Samples.odfMeta
                (Samples.element "meta:creation-date" "last week"))
      as [_ Hodf]; [reflexivity |].
    destruct Hodf as [Hcreated _]; [reflexivity | reflexivity |].
    apply Hcreated. reflexivity.
Defined.

(* ===================================================================== *)
(** ** Determinism                                                       *)
(* ===================================================================== *)

(** C10.  Both decoders are deterministic and keep no state between
    calls: two calls in a row on the same text, from any heap, return two
    different references, and once both calls are over the two references
    denote the same value, the one the function computes from the text. *)
Theorem decoders_are_deterministic
    (parse : string -> Node) (newDate : string -> JSDate)
    (xmlContent : string) (h : Imperative.Heap) :
  (let '(first, h1) := Imperative.parseOfficeMetadata parse newDate xmlContent h in
   let '(second, h2) := Imperative.parseOfficeMetadata parse newDate xmlContent h1 in
   first ≠ second
   /\ Imperative.readMetadata h2 first
      = Some (parseOfficeMetadata parse newDate xmlContent)
   /\ Imperative.readMetadata h2 second
      = Some (parseOfficeMetadata parse newDate xmlContent))
  /\ (let '(first, h1) :=
        Imperative.parseOOXMLCustomProperties parse newDate xmlContent h in
      let '(second, h2) :=
        Imperative.parseOOXMLCustomProperties parse newDate xmlContent h1 in
      first ≠ second
      /\ Imperative.readProperties h2 first
         = Some (parseOOXMLCustomProperties parse newDate xmlContent)
      /\ Imperative.readProperties h2 second
         = Some (parseOOXMLCustomProperties parse newDate xmlContent)).
Proof.
  split.
  - destruct (parseOfficeMetadata_run parse newDate xmlContent h)
      as (objects1 & -> & Hread1).
    destruct (parseOfficeMetadata_run parse newDate xmlContent (h ++ objects1))
      as (objects2 & -> & Hread2).
    split; [|split; [by apply readMetadata_app | done]].
    destruct objects1 as [|o objects1]; [|rewrite length_app; simpl; lia].
    unfold Imperative.readMetadata in Hread1.
    rewrite app_nil_r, lookup_ge_None_2 in Hread1; [done | lia].
  - rewrite !parseOOXMLCustomProperties_run.
    split; [rewrite length_app; simpl; lia |].
    unfold Imperative.readProperties. split.
    + rewrite lookup_app_l by (rewrite length_app; simpl; lia).
      by rewrite lookup_last.
    + by rewrite lookup_last.
Qed.

(* ===================================================================== *)
(** ** Typed values                                                      *)
(* ===================================================================== *)

Lemma orElse_tag tag : orElse (Some tag) "" = tag.
Proof. by destruct tag. Qed.

(** A property with a name hands its first element child to the
    if-chain. *)
Lemma propertyStep_value newDate (o : PropertyMap) prop name el :
  DOM.getAttribute prop "name" = Some name ->
  JSString.truthy name = true ->
  firstElementChild prop = Some el ->
  propertyStep newDate o prop = assignValue newDate o name el.
Proof.
  intros Hname Htruthy Hel. unfold propertyStep.
  rewrite Hname. simpl. rewrite Htruthy. simpl.
  rewrite valueLoop_first. unfold firstElementChild in Hel. by rewrite Hel.
Qed.

(** A property without a value element assigns nothing. *)
Lemma propertyStep_no_value newDate (o : PropertyMap) prop :
  firstElementChild prop = None -> propertyStep newDate o prop = o.
Proof.
  intros Hel. unfold propertyStep. destruct (negb _); [done |].
  rewrite valueLoop_first. unfold firstElementChild in Hel. by rewrite Hel.
Qed.

(** C4, as stated, fails: an ODF user-defined element of value type
    [boolean] whose text is empty, a text other than [true], is skipped
    before its type is looked at and leaves no entry at all, where the
    claim has it decode to the Boolean [false]. *)
Lemma empty_boolean_text_leaves_no_entry :
  (exists officeMeta,
      head (getElementsByTagName (Cases.parser Cases.odfEmptyBooleanXml)
              "cp:coreProperties") = None
      /\ head (getElementsByTagName (Cases.parser Cases.odfEmptyBooleanXml)
                 "office:meta") = Some officeMeta
      /\ getElementsByTagName officeMeta "meta:user-defined"
         = [Cases.odfEmptyBoolean])
  /\ DOM.getAttribute Cases.odfEmptyBoolean "meta:name" = Some "done"
  /\ DOM.getAttribute Cases.odfEmptyBoolean "meta:value-type" = Some "boolean"
  /\ DOM.textContent Cases.odfEmptyBoolean = ""
  /\ (forall o : PropertyMap,
         userDefinedStep Samples.Engine.newDate o Cases.odfEmptyBoolean = o)
  /\ parseOfficeMetadata Cases.parser Samples.Engine.newDate
       Cases.odfEmptyBooleanXml
     = emptyMetadata.
Proof.
  split; [|by repeat split].
  exists Cases.odfEmptyBooleanMeta. by repeat split.
Qed.

(** C4, amended.  Boolean decoding is total and never drops a value that
    reaches it.  Given the value type [boolean], the if-chain of the ODF
    branch, and given a value element whose qualified name matches
    [vt:bool], the if-chain of the custom-properties decoder, execute the
    assignment of a Boolean under the name, whatever the text is: the
    Boolean is [text.toLowerCase() === "true"], so that [no] and any other
    text give [false].  Hence an ODF user-defined element of value type
    [boolean] with a name other than [__proto__] and a text that is not
    empty, and a property with a name other than [__proto__] whose first
    element child is such a value element, whatever its text, store that
    Boolean under the name when they are processed; the name is a key of
    the output, and it holds that Boolean when no later element assigns
    under the same name.  An ODF element whose text is empty never
    reaches the chain. *)
Theorem boolean_decoding_never_drops
    (parse : string -> Node) (newDate : string -> JSDate)
    (xmlContent : string) :
  (forall (o : PropertyMap) name raw,
      assignUserDefined newDate o name "boolean" raw
      = obj_set o name (VBoolean (isTrueIgnoringCase raw)))
  /\ (forall (o : PropertyMap) name el tag,
         DOM.tagName el = Some tag ->
         qualifiedName tag ->
         Pattern.isBool tag = true ->
         assignValue newDate o name el
         = obj_set o name (VBoolean (isTrueIgnoringCase (DOM.textContent el))))
  /\ (forall el name,
         DOM.getAttribute el "meta:name" = Some name ->
         JSString.truthy name = true ->
         name ≠ "__proto__" ->
         JSString.truthy (DOM.textContent el) = true ->
         DOM.getAttribute el "meta:value-type" = Some "boolean" ->
         let decoded := VBoolean (isTrueIgnoringCase (DOM.textContent el)) in
         (forall o : PropertyMap,
             userDefinedStep newDate o el = <[name := decoded]> o)
         /\ (forall officeMeta before after,
                head (getElementsByTagName (parse xmlContent)
                        "cp:coreProperties") = None ->
                head (getElementsByTagName (parse xmlContent) "office:meta")
                = Some officeMeta ->
                getElementsByTagName officeMeta "meta:user-defined"
                = before ++ el :: after ->
                exists custom,
                  customProperties
                    (parseOfficeMetadata parse newDate xmlContent)
                  = Some custom
                  /\ is_Some (custom !! name)
                  /\ (Forall (fun later =>
                                userDefinedStep newDate ∅ later !! name = None)
                             after ->
                      custom !! name = Some decoded)))
  /\ (forall prop name el tag,
         DOM.getAttribute prop "name" = Some name ->
         JSString.truthy name = true ->
         name ≠ "__proto__" ->
         firstElementChild prop = Some el ->
         DOM.tagName el = Some tag ->
         qualifiedName tag ->
         Pattern.isBool tag = true ->
         let decoded := VBoolean (isTrueIgnoringCase (DOM.textContent el)) in
         (forall o : PropertyMap,
             propertyStep newDate o prop = <[name := decoded]> o)
         /\ (forall before after,
                getElementsByTagName (parse xmlContent) "property"
                = before ++ prop :: after ->
                is_Some (parseOOXMLCustomProperties parse newDate xmlContent
                         !! name)
                /\ (Forall (fun later =>
                              propertyStep newDate ∅ later !! name = None)
                           after ->
                    parseOOXMLCustomProperties parse newDate xmlContent
                    !! name = Some decoded)))
  /\ (forall text,
         isTrueIgnoringCase text
         = String.eqb (JSString.toLowerCase text) "true")
  /\ isTrueIgnoringCase "no" = false
  /\ isTrueIgnoringCase "" = false
  /\ isTrueIgnoringCase "TrUe" = true.
Proof.
  assert (Hodf : forall (o : PropertyMap) name raw,
             assignUserDefined newDate o name "boolean" raw
             = obj_set o name (VBoolean (isTrueIgnoringCase raw))).
  { intros o name raw. unfold assignUserDefined. simpl.
    by rewrite toLowerCase_true. }
  assert (Hcustom : forall (o : PropertyMap) name el tag,
             DOM.tagName el = Some tag ->
             qualifiedName tag ->
             Pattern.isBool tag = true ->
             assignValue newDate o name el
             = obj_set o name
                 (VBoolean (isTrueIgnoringCase (DOM.textContent el)))).
  { intros o name el tag Htag Hq Hbool.
    unfold assignValue. rewrite Htag, orElse_tag.
    rewrite (bool_not_string _ Hq Hbool), Hbool.
    by rewrite toLowerCase_true. }
  split; [exact Hodf |]. split; [exact Hcustom |].
  split; [|split; [|split; [|by repeat split]]].
  - intros el name Hname Htruthy Hproto Htext Htype decoded.
    assert (Hstep : forall o : PropertyMap,
               userDefinedStep newDate o el = <[name := decoded]> o).
    { intros o. unfold userDefinedStep.
      rewrite Hname, Htype. simpl. rewrite Htruthy, Htext. simpl.
      rewrite Hodf. by apply obj_set_regular. }
    split; [exact Hstep |].
    intros officeMeta before after Hcp Hmeta Hlist.
    rewrite (odf_branch _ _ _ _ Hcp Hmeta). simpl.
    assert (Hhere : userDefinedStep newDate ∅ el !! name = Some decoded)
      by (rewrite Hstep; apply lookup_insert_eq).
    assert (Hkey : is_Some (userDefinedMap newDate officeMeta !! name)).
    { unfold userDefinedMap.
      eapply (loop_lookup_present _ (userDefinedStep_union newDate) _ _ el);
        [rewrite Hlist; apply in_elt | rewrite Hhere; eauto]. }
    destruct (hasKeys _) eqn:Hkeys.
    + eexists. split; [reflexivity |]. split; [exact Hkey |].
      intros Hafter. unfold userDefinedMap. rewrite Hlist.
      by apply (loop_lookup_last _ (userDefinedStep_union newDate)).
    + apply hasKeys_false in Hkeys. rewrite Hkeys, lookup_empty in Hkey.
      by destruct Hkey.
  - intros prop name el tag Hname Htruthy Hproto Hel Htag Hq Hbool decoded.
    assert (Hstep : forall o : PropertyMap,
               propertyStep newDate o prop = <[name := decoded]> o).
    { intros o. rewrite (propertyStep_value _ _ _ _ _ Hname Htruthy Hel).
      rewrite (Hcustom _ _ _ _ Htag Hq Hbool). by apply obj_set_regular. }
    split; [exact Hstep |].
    intros before after Hlist.
    assert (Hhere : propertyStep newDate ∅ prop !! name = Some decoded)
      by (rewrite Hstep; apply lookup_insert_eq).
    unfold parseOOXMLCustomProperties, parseXmlString. rewrite Hlist. split.
    + eapply (loop_lookup_present _ (propertyStep_union newDate) _ _ prop);
        [apply in_elt | rewrite Hhere; eauto].
    + intros Hafter.
      by apply (loop_lookup_last _ (propertyStep_union newDate)).
  - intros text. symmetry. apply toLowerCase_true.
Qed.

Lemma boolean_decoding_never_drops_witness :
  (exists custom,
      customProperties (parseOfficeMetadata Samples.parser
                          Samples.Engine.newDate Samples.odfXml)
      = Some custom
      /\ custom !! "flag" = Some (VBoolean false))
  /\ parseOOXMLCustomProperties Samples.parser Samples.Engine.newDate
       Samples.customXml !! "Reviewed"
     = Some (VBoolean false).
Proof.
  split.
  - destruct (boolean_decoding_never_drops
                Samples.parser Samples.Engine.newDate Samples.odfXml)
      as (_ & _ & Hodf & _).
    destruct (Hodf Samples.odfFlag "flag") as [_ Hfinal];
      [reflexivity | reflexivity | discriminate | reflexivity | reflexivity |].
    destruct (Hfinal Samples.odfMeta []
                [Samples.odfRatio; Samples.odfDue; Samples.odfAnonymous;
                 Samples.odfBlank])
      as (custom & Hcustom & _ & Hvalue);
      [reflexivity | reflexivity | reflexivity |].
    exists custom. split; [exact Hcustom |].
    apply Hvalue. repeat constructor.
  - destruct (boolean_decoding_never_drops
                Samples.parser Samples.Engine.newDate Samples.customXml)
      as (_ & _ & _ & Hcustom & _).
    destruct (Hcustom Samples.customReviewed "Reviewed"
                (Samples.element "vt:bool" "no") "vt:bool") as [_ Hfinal];
      [ reflexivity | reflexivity | discriminate | reflexivity | reflexivity
      | unfold qualifiedName; simpl; lia | reflexivity |].
    destruct (Hfinal
                [Samples.property "2" "Department"
                   [Samples.element "vt:lpwstr" "Engineering"]]
                [Samples.customPriority; Samples.customDue;
                 Samples.customScore])
      as [_ Hvalue]; [reflexivity |].
    apply Hvalue. repeat constructor.
Defined.

(** C2, as stated, fails: the name of a property whose numeric text does
    not parse can still be present in the returned map, holding the value
    of an earlier property of the same name. *)
Lemma numeric_failure_name_may_remain :
  In Samples.duplicateSecond
     (getElementsByTagName (Samples.parser Samples.duplicateXml) "property")
  /\ DOM.getAttribute Samples.duplicateSecond "name" = Some "a"
  /\ (exists el,
        firstElementChild Samples.duplicateSecond = Some el
        /\ DOM.tagName el = Some "vt:r8"
        /\ DOM.textContent el = "abc"
        /\ isNaN (Number (DOM.textContent el)) = true)
  /\ parseOOXMLCustomProperties Samples.parser Samples.Engine.newDate
       Samples.duplicateXml !! "a" = Some (VText "x").
Proof.
  split; [right; left; reflexivity |].
  split; [reflexivity |].
  split; [|reflexivity].
  exists (Samples.element "vt:r8" "abc"). by repeat split.
Qed.

(** C2, amended.  A property with a name whose value element carries one
    of the numeric tags and a text that [Number] turns into NaN assigns
    nothing: the result is left as it was, with no zero or default value
    under the name.  The name is absent from the returned map when no
    property element of that name assigns under it.  The same holds for an
    ODF user-defined element of value type [float]. *)
Theorem numeric_failure_assigns_nothing
    (parse : string -> Node) (newDate : string -> JSDate)
    (xmlContent : string) :
  (forall (o : PropertyMap) prop name el tag,
      DOM.getAttribute prop "name" = Some name ->
      JSString.truthy name = true ->
      firstElementChild prop = Some el ->
      DOM.tagName el = Some tag ->
      In tag Pattern.numberLiterals ->
      isNaN (Number (DOM.textContent el)) = true ->
      propertyStep newDate o prop = o)
  /\ (forall name,
         (forall prop,
             In prop (getElementsByTagName (parse xmlContent) "property") ->
             DOM.getAttribute prop "name" = Some name ->
             propertyStep newDate ∅ prop !! name = None) ->
         parseOOXMLCustomProperties parse newDate xmlContent !! name = None)
  /\ (forall (o : PropertyMap) el,
         DOM.getAttribute el "meta:value-type" = Some "float" ->
         isNaN (Number (DOM.textContent el)) = true ->
         userDefinedStep newDate o el = o)
  /\ (forall officeMeta name custom,
         head (getElementsByTagName (parse xmlContent) "cp:coreProperties") = None ->
         head (getElementsByTagName (parse xmlContent) "office:meta") = Some officeMeta ->
         (forall el,
             In el (getElementsByTagName officeMeta "meta:user-defined") ->
             DOM.getAttribute el "meta:name" = Some name ->
             userDefinedStep newDate ∅ el !! name = None) ->
         customProperties (parseOfficeMetadata parse newDate xmlContent)
         = Some custom ->
         custom !! name = None).
Proof.
  repeat split.
  - intros o prop name el tag Hname Htruthy Hel Htag Hin Hnan.
    rewrite (propertyStep_value _ _ _ _ _ Hname Htruthy Hel).
    destruct (numberLiterals_number _ Hin) as (_ & Hnum & Hstr & Hbool).
    unfold assignValue. rewrite Htag, orElse_tag, Hstr, Hbool, Hnum.
    by rewrite Hnan.
  - intros name Hnone. unfold parseOOXMLCustomProperties, parseXmlString.
    rewrite (loop_lookup_untouched _ (propertyStep_union newDate));
      [apply lookup_empty |].
    apply List.Forall_forall. intros prop Hin.
    destruct (decide (DOM.getAttribute prop "name" = Some name)) as [Hn | Hn].
    + by apply Hnone.
    + by apply propertyStep_other_key.
  - intros o el Htype Hnan. unfold userDefinedStep, assignUserDefined.
    destruct (negb _ || negb _); [done |].
    rewrite Htype. simpl. by rewrite Hnan.
  - intros officeMeta name custom Hcp Hmeta Hnone.
    rewrite (odf_branch _ _ _ _ Hcp Hmeta). simpl.
    destruct (hasKeys _); [|done]. intros [= <-]. unfold userDefinedMap.
    rewrite (loop_lookup_untouched _ (userDefinedStep_union newDate));
      [apply lookup_empty |].
    apply List.Forall_forall. intros el Hin.
    destruct (decide (DOM.getAttribute el "meta:name" = Some name)) as [Hn | Hn].
    + by apply Hnone.
    + by apply userDefinedStep_other_key.
Qed.

Lemma numeric_failure_assigns_nothing_witness :
  propertyStep Samples.Engine.newDate {["Score" := VNumber zero]}
    Samples.customScore = {["Score" := VNumber zero]}
  /\ parseOOXMLCustomProperties Samples.parser Samples.Engine.newDate
       Samples.customXml !! "Score" = None
  /\ userDefinedStep Samples.Engine.newDate ∅ Samples.odfRatio = ∅
  /\ (forall custom,
         customProperties (parseOfficeMetadata Samples.parser
                             Samples.Engine.newDate Samples.odfXml)
         = Some custom ->
         custom !! "ratio" = None).
Proof.
  destruct (numeric_failure_assigns_nothing
              Samples.parser Samples.Engine.newDate Samples.customXml)
    as (Hstep & Hfinal & Hodf & _).
  destruct (numeric_failure_assigns_nothing
              Samples.parser Samples.Engine.newDate Samples.odfXml)
    as (_ & _ & _ & HodfFinal).
  split; [|split; [|split]].
  - apply (Hstep _ Samples.customScore "Score"
             (Samples.element "vt:r8" "abc") "vt:r8");
      first [ reflexivity | simpl; tauto ].
  - apply Hfinal. intros prop Hin Hname. vm_compute in Hin.
    repeat destruct Hin as [<- | Hin]; try contradiction;
      first [ discriminate Hname | reflexivity ].
  - apply Hodf; reflexivity.
  - intros custom. apply (HodfFinal Samples.odfMeta); try reflexivity.
    intros el Hin Hname. vm_compute in Hin.
    repeat destruct Hin as [<- | Hin]; try contradiction;
      first [ discriminate Hname | reflexivity ].
Defined.




(* ===================================================================== *)
(** ** Names and the returned maps                                       *)
(* ===================================================================== *)

(** X1.  In the custom-properties decoder the last property element that
    creates an own property under a name decides the value the returned
    map holds under it: later elements overwrite earlier ones. *)
Theorem last_assignment_wins
    (parse : string -> Node) (newDate : string -> JSDate)
    (xmlContent : string) before prop after name v :
  getElementsByTagName (parse xmlContent) "property" = before ++ prop :: after ->
  propertyStep newDate ∅ prop !! name = Some v ->
  Forall (fun later => propertyStep newDate ∅ later !! name = None) after ->
  parseOOXMLCustomProperties parse newDate xmlContent !! name = Some v.
Proof.
  intros Hlist Hprop Hafter. unfold parseOOXMLCustomProperties, parseXmlString.
  rewrite Hlist.
  by apply (loop_lookup_last _ (propertyStep_union newDate)).
Qed.

Lemma last_assignment_wins_witness :
  parseOOXMLCustomProperties Samples.parser Samples.Engine.newDate
    Samples.duplicateXml !! "a" = Some (VText "x").
Proof.
  apply (last_assignment_wins Samples.parser Samples.Engine.newDate
           Samples.duplicateXml [] Samples.duplicateFirst
           [Samples.duplicateSecond]); [reflexivity | reflexivity |].
  apply Forall_cons. split; [reflexivity | apply Forall_nil; exact I].
Defined.

(** X2.  A property with a name other than [__proto__] whose value element
    carries a numeric tag and an empty or whitespace-only text stores the
    number 0 under its name. *)
Theorem blank_number_stores_zero
    (newDate : string -> JSDate) (o : PropertyMap) prop name el tag :
  DOM.getAttribute prop "name" = Some name ->
  JSString.truthy name = true ->
  name ≠ "__proto__" ->
  firstElementChild prop = Some el ->
  DOM.tagName el = Some tag ->
  In tag Pattern.numberLiterals ->
  JSString.allWhiteSpace (DOM.textContent el) = true ->
  propertyStep newDate o prop = <[name := VNumber zero]> o.
Proof.
  intros Hname Htruthy Hproto Hel Htag Hin Hblank.
  rewrite (propertyStep_value _ _ _ _ _ Hname Htruthy Hel).
  destruct (numberLiterals_number _ Hin) as (_ & Hnum & Hstr & Hbool).
  unfold assignValue. rewrite Htag, orElse_tag, Hstr, Hbool, Hnum.
  rewrite (Number_whitespace _ Hblank). simpl.
  by apply obj_set_regular.
Qed.

Lemma blank_number_stores_zero_witness :
  propertyStep Samples.Engine.newDate ∅ Samples.customPriority
  = {["Priority" := VNumber zero]}.
Proof.
  rewrite (blank_number_stores_zero Samples.Engine.newDate ∅
             Samples.customPriority "Priority"
             (Samples.element "vt:i4" " ") "vt:i4");
    first [ reflexivity | discriminate | simpl; tauto ].
Defined.

(** C5 at the name [__proto__]: the value element is numeric and empty,
    [Number] makes 0 of its text, and the returned map has no entry. *)
Lemma proto_number_is_not_inserted :
  DOM.getAttribute Samples.protoNumber "name" = Some "__proto__"
  /\ (exists el,
        firstElementChild Samples.protoNumber = Some el
        /\ DOM.tagName el = Some "vt:i4"
        /\ DOM.textContent el = ""
        /\ Number (DOM.textContent el) = zero)
  /\ parseOOXMLCustomProperties Samples.parser Samples.Engine.newDate
       Samples.protoNumberXml = ∅.
Proof.
  split; [reflexivity |]. split; [|reflexivity].
  exists (Element "vt:i4" [] []). by repeat split.
Qed.

(** C7 at the name [__proto__]: two property elements share the name,
    each value element decodes (the same children under another name are
    stored), and the returned map has no entry under the name. *)
Lemma proto_named_properties_leave_no_entry :
  In Samples.protoSecond
     (getElementsByTagName (Samples.parser Samples.protoXml) "property")
  /\ DOM.getAttribute Samples.protoSecond "name" = Some "__proto__"
  /\ propertyStep Samples.Engine.newDate ∅
       (Samples.property "3" "other" (DOM.childNodes Samples.protoSecond))
     = {["other" := VText "second"]}
  /\ propertyStep Samples.Engine.newDate ∅ Samples.protoSecond = ∅
  /\ parseOOXMLCustomProperties Samples.parser Samples.Engine.newDate
       Samples.protoXml = {["n" := VNumber (Finite false 1 0)]}.
Proof.
  split; [right; left; reflexivity |]. by repeat split.
Qed.

(** X3.  A user-defined element whose [meta:name] attribute is absent or
    empty, or whose text content is empty, assigns nothing. *)
Theorem user_defined_without_name_or_text_is_skipped
    (newDate : string -> JSDate) (o : PropertyMap) el :
  present (DOM.getAttribute el "meta:name") = false
  \/ DOM.textContent el = "" ->
  userDefinedStep newDate o el = o.
Proof.
  intros [Hname | Htext]; unfold userDefinedStep.
  - by rewrite Hname.
  - rewrite Htext. simpl. by rewrite orb_true_r.
Qed.

Lemma user_defined_without_name_or_text_is_skipped_witness :
  userDefinedStep Samples.Engine.newDate ∅ Samples.odfAnonymous = ∅
  /\ userDefinedStep Samples.Engine.newDate ∅ Samples.odfBlank = ∅.
Proof.
  split; apply user_defined_without_name_or_text_is_skipped;
    [left | right]; reflexivity.
Defined.

(** X4.  In the ODF branch [customProperties] is attached exactly when
    some user-defined element creates an own property, and it is then the
    dictionary built from all of them. *)
Theorem custom_properties_attached_iff_stored
    (parse : string -> Node) (newDate : string -> JSDate)
    (xmlContent : string) officeMeta :
  head (getElementsByTagName (parse xmlContent) "cp:coreProperties") = None ->
  head (getElementsByTagName (parse xmlContent) "office:meta") = Some officeMeta ->
  let r := parseOfficeMetadata parse newDate xmlContent in
  (is_Some (customProperties r)
   <-> exists el, In el (getElementsByTagName officeMeta "meta:user-defined")
                  /\ userDefinedStep newDate ∅ el ≠ ∅)
  /\ (forall custom, customProperties r = Some custom ->
                     custom = userDefinedMap newDate officeMeta).
Proof.
  intros Hcp Hmeta r. subst r. rewrite (odf_branch _ _ _ _ Hcp Hmeta). simpl.
  pose proof (loop_empty _ (userDefinedStep_union newDate)
                (getElementsByTagName officeMeta "meta:user-defined")) as Hempty.
  fold (userDefinedMap newDate officeMeta) in Hempty.
  destruct (hasKeys _) eqn:Hkeys.
  - apply hasKeys_true in Hkeys. split; [|by intros custom [= <-]].
    split; [intros _ | eauto].
    assert (Hnot : ~ Forall (fun el => userDefinedStep newDate ∅ el = ∅)
                     (getElementsByTagName officeMeta "meta:user-defined"))
      by (by rewrite <- Hempty).
    apply not_Forall_Exists in Hnot; [|intros el; apply _].
    apply Exists_exists in Hnot as (el & Hin & Hel).
    exists el. split; [by apply list_elem_of_In | exact Hel].
  - apply hasKeys_false in Hkeys. split; [|done].
    split; [by intros [? ?] |].
    intros (el & Hin & Hel). exfalso. apply Hempty in Hkeys.
    rewrite Forall_forall in Hkeys. apply Hel, Hkeys. by apply list_elem_of_In.
Qed.

Lemma custom_properties_attached_iff_stored_witness :
  customProperties (parseOfficeMetadata Samples.parser Samples.Engine.newDate
                      Samples.odfXml)
  = Some (<["due" := VText "not-a-date"]> {["flag" := VBoolean false]}).
Proof.
  destruct (custom_properties_attached_iff_stored
              Samples.parser Samples.Engine.newDate Samples.odfXml
              Samples.odfMeta eq_refl eq_refl) as [[_ Hattached] Hvalue].
  destruct Hattached as [custom Hcustom].
  - exists Samples.odfFlag. split; [vm_compute; tauto |].
    intros Hempty. apply (f_equal (fun m : PropertyMap => m !! "flag")) in Hempty.
    vm_compute in Hempty. discriminate.
  - rewrite Hcustom. f_equal. rewrite (Hvalue custom Hcustom). reflexivity.
Defined.

(** C8 at the name [__proto__]: the only user-defined element has a name
    and a text, decodes to a Text value (the same element under another
    name is stored), and [customProperties] stays absent. *)
Lemma proto_user_defined_is_not_attached :
  (exists officeMeta,
      head (getElementsByTagName (Samples.parser Samples.odfProtoXml)
              "office:meta") = Some officeMeta
      /\ getElementsByTagName officeMeta "meta:user-defined"
         = [Samples.odfProto])
  /\ DOM.getAttribute Samples.odfProto "meta:name" = Some "__proto__"
  /\ DOM.textContent Samples.odfProto = "x"
  /\ userDefinedStep Samples.Engine.newDate ∅
       (Element "meta:user-defined" [("meta:name", "other")]
          (DOM.childNodes Samples.odfProto))
     = {["other" := VText "x"]}
  /\ customProperties (parseOfficeMetadata Samples.parser
                         Samples.Engine.newDate Samples.odfProtoXml)
     = None.
Proof.
  split; [|by repeat split].
  exists Samples.odfProtoMeta. by split.
Qed.

(* ===================================================================== *)
(** ** The tree queries                                                  *)
(* ===================================================================== *)

Lemma filter_of_flat_map {A B : Type} (p : B -> bool) (f : A -> list B) (l : list A) :
  List.filter p (flat_map f l) = flat_map (fun x => List.filter p (f x)) l.
Proof.
  induction l as [|x l IH]; simpl; [done |].
  by rewrite List.filter_app, IH.
Qed.

Lemma subtree_cons n : DOM.subtree n = n :: DOM.descendants n.
Proof. by destruct n. Qed.

(** A child weighs no more than the children together. *)
Lemma nodeCount_children base c :
  In c (DOM.childNodes base) -> nodeCount c < nodeCount base.
Proof.
  assert (Hsum : forall cs : list Node, In c cs ->
            nodeCount c <=
              (fix total (l : list Node) : nat :=
                 match l with
                 | [] => 0
                 | c :: l' => nodeCount c + total l'
                 end) cs).
  { induction cs as [|d cs IH]; intros Hin; [destruct Hin |].
    destruct Hin as [-> | Hin]; [lia |]. specialize (IH Hin). lia. }
  destruct base; simpl; intros Hin; try contradiction;
    apply Hsum in Hin; lia.
Qed.

Lemma Below_nodeCount n base : Below n base -> nodeCount n < nodeCount base.
Proof.
  induction 1 as [n base Hin | n c base Hin _ IH].
  - by apply nodeCount_children.
  - apply nodeCount_children in Hin. lia.
Qed.

(** X5.  [getDirectChildren] does not search recursively: it returns
    exactly the children of [parent] that are elements of the given tag,
    and these are among the elements [getElementsByTagName] returns for
    the same tag, in the same relative order. *)
Theorem direct_children_are_among_the_descendants
    (parent : Node) (tagName : string) :
  (forall e, In e (getDirectChildren parent tagName)
             <-> In e (DOM.childNodes parent) /\ DOM.tagName e = Some tagName)
  /\ getDirectChildren parent tagName
       `sublist_of` getElementsByTagName parent tagName.
Proof.
  split.
  - intros e. unfold getDirectChildren. rewrite List.filter_In.
    destruct e as [cs | t a cs | d | d | d | t d]; simpl;
      try solve [split; intros [_ H]; discriminate H].
    destruct (String.eqb_spec t tagName); split; intros [? ?]; split;
      congruence.
  - unfold getDirectChildren, getElementsByTagName, DOM.getElementsByTagName,
      DOM.descendants.
    rewrite filter_of_flat_map.
    induction (DOM.childNodes parent) as [|c cs IH]; simpl; [done |].
    rewrite subtree_cons. simpl.
    destruct c as [cs' | t a cs' | d | d | d | t d]; simpl;
      try solve [exact IH | by apply sublist_inserts_l].
    destruct (String.eqb_spec t tagName) as [-> | Hne].
    + rewrite orb_true_r. simpl.
      apply sublist_skip. by apply sublist_inserts_l.
    + destruct (_ || _); simpl.
      * apply sublist_cons. by apply sublist_inserts_l.
      * by apply sublist_inserts_l.
Qed.

(** X6.  For a tag other than the wildcard, [getElementsByTagName]
    returns exactly the elements of that tag that lie strictly inside
    [element], at any depth; [element] itself is never among them. *)
Theorem search_returns_the_elements_strictly_inside
    (element : Node) (tagName : string) :
  tagName ≠ "*" ->
  (forall e, In e (getElementsByTagName element tagName)
             <-> Below e element /\ DOM.tagName e = Some tagName)
  /\ ~ In element (getElementsByTagName element tagName).
Proof.
  intros Hstar. split.
  - intros e. by apply getElementsByTagName_In.
  - intros Hin. apply getElementsByTagName_In in Hin as [HB _]; [|done].
    apply Below_nodeCount in HB. lia.
Qed.

Lemma search_returns_the_elements_strictly_inside_witness :
  In Samples.odfFlag (getElementsByTagName Samples.odfTree "meta:user-defined")
  /\ ~ In Samples.odfMeta (getElementsByTagName Samples.odfMeta "office:meta").
Proof.
  split.
  - apply (search_returns_the_elements_strictly_inside
             Samples.odfTree "meta:user-defined"); [discriminate |].
    split; [|reflexivity].
    apply descendants_In. simpl.
    repeat first [left; reflexivity | right].
  - apply (search_returns_the_elements_strictly_inside
             Samples.odfMeta "office:meta"). discriminate.
Defined.

(** X7.  The elements come in document order: for each child of
    [element] in turn, the child itself when it matches, followed by the
    matches inside that child. *)
Theorem search_lists_matches_in_document_order
    (element : Node) (tagName : string) :
  getElementsByTagName element tagName
  = flat_map
      (fun child =>
         (if DOM.hasTagName tagName child then [child] else [])
         ++ getElementsByTagName child tagName)
      (DOM.childNodes element).
Proof.
  unfold getElementsByTagName, DOM.getElementsByTagName.
  unfold DOM.descendants at 1. rewrite filter_of_flat_map.
  apply flat_map_ext. intros child. rewrite subtree_cons. simpl.
  by destruct (DOM.hasTagName tagName child).
Qed.

Lemma filter_keeps_sublist {A : Type} (p : A -> bool) (l1 l2 : list A) :
  l1 `sublist_of` l2 -> List.filter p l1 `sublist_of` List.filter p l2.
Proof.
  induction 1 as [|x l1 l2 _ IH | x l1 l2 _ IH]; simpl.
  - constructor.
  - destruct (p x); [by apply sublist_skip | done].
  - destruct (p x); [by apply sublist_cons | done].
Qed.

Lemma flat_map_part {A B : Type} (f : A -> list B) (l : list A) x :
  In x l -> f x `sublist_of` flat_map f l.
Proof.
  induction l as [|y l IH]; intros Hin; [destruct Hin |]. simpl.
  destruct Hin as [-> | Hin].
  - by apply sublist_inserts_r.
  - by apply sublist_inserts_l, IH.
Qed.

(** Everything below a node that lies inside [base] lies inside [base],
    in the same order. *)
Lemma Below_subtree n base :
  Below n base -> DOM.subtree n `sublist_of` DOM.descendants base.
Proof.
  induction 1 as [n base Hin | n c base Hin _ IH].
  - by apply (flat_map_part DOM.subtree).
  - etrans; [exact IH |]. etrans; [|by apply (flat_map_part DOM.subtree)].
    rewrite subtree_cons. by apply sublist_cons.
Qed.

(** X18.  Searches nest: what [getElementsByTagName] finds inside a node
    that lies inside [base] is part of what it finds inside [base] for
    the same tag, in the same order.  So every element a decoder reads
    inside its marker is an element of the document. *)
Theorem nested_search_is_part_of_the_outer_search
    (base inner : Node) (tagName : string) :
  Below inner base ->
  getElementsByTagName inner tagName
    `sublist_of` getElementsByTagName base tagName.
Proof.
  intros HB. unfold getElementsByTagName, DOM.getElementsByTagName.
  apply filter_keeps_sublist. etrans; [|by apply Below_subtree].
  rewrite subtree_cons. by apply sublist_cons.
Qed.

Lemma nested_search_is_part_of_the_outer_search_witness :
  getElementsByTagName Samples.odfMeta "meta:user-defined"
    `sublist_of` getElementsByTagName Samples.odfTree "meta:user-defined".
Proof.
  apply (nested_search_is_part_of_the_outer_search
           Samples.odfTree Samples.odfMeta "meta:user-defined").
  apply descendants_In. simpl. repeat first [left; reflexivity | right].
Defined.

(* ===================================================================== *)
(** ** The ODF branch and the scalar fields                              *)
(* ===================================================================== *)

(** X8.  When the parsed tree holds no [cp:coreProperties] element and
    holds an [office:meta] element, [parseOfficeMetadata] decodes by the
    ODF branch: the fields are read from inside the first such element
    under the ODF tags ([dc:title], [dc:creator], [meta:creation-date],
    [dc:date], [dc:description], [dc:subject]), [lastModifiedBy] is never
    set, and [customProperties] is the dictionary of the user-defined
    elements when it has a key. *)
Theorem odf_meta_is_read_without_core_properties
    (parse : string -> Node) (newDate : string -> JSDate)
    (xmlContent : string) (e : Node) :
  (forall n, Below n (parse xmlContent) ->
             DOM.tagName n ≠ Some "cp:coreProperties") ->
  Below e (parse xmlContent) ->
  DOM.tagName e = Some "office:meta" ->
  exists officeMeta,
    head (getElementsByTagName (parse xmlContent) "office:meta")
    = Some officeMeta
    /\ parseOfficeMetadata parse newDate xmlContent =
       {| title := firstText officeMeta "dc:title";
          author := firstText officeMeta "dc:creator";
          lastModifiedBy := None;
          created := newDate <$> firstText officeMeta "meta:creation-date";
          modified := newDate <$> firstText officeMeta "dc:date";
          description := firstText officeMeta "dc:description";
          subject := firstText officeMeta "dc:subject";
          customProperties :=
            if hasKeys (userDefinedMap newDate officeMeta)
            then Some (userDefinedMap newDate officeMeta) else None |}.
Proof.
  intros Hcore HB Htag.
  destruct (getElementsByTagName_some (parse xmlContent) "office:meta" e)
    as (officeMeta & Hmeta & _); [done | done | done |].
  exists officeMeta. split; [done |]. apply odf_branch; [|done].
  by rewrite getElementsByTagName_none.
Qed.

Lemma odf_meta_is_read_without_core_properties_witness :
  parseOfficeMetadata Samples.parser Samples.Engine.newDate Samples.odfXml =
    {| title := Some "Notes";
       author := None;
       lastModifiedBy := None;
       created := Some InvalidDate;
       modified := Some (TimeValue 1705314600000);
       description := None;
       subject := None;
       customProperties :=
         Some (<["flag" := VBoolean false]> {["due" := VText "not-a-date"]}) |}.
Proof.
  destruct (odf_meta_is_read_without_core_properties
              Samples.parser Samples.Engine.newDate Samples.odfXml
              Samples.odfMeta)
    as (officeMeta & Hmeta & ->).
  - intros n HB. eapply no_element_named; [| |exact HB];
      first [discriminate | reflexivity].
  - apply descendants_In. simpl. repeat first [left; reflexivity | right].
  - reflexivity.
  - vm_compute in Hmeta. injection Hmeta as <-. vm_compute. reflexivity.
Defined.

Lemma firstText_of_matches base tag :
  firstText base tag =
    match getElementsByTagName base tag with
    | [] => None
    | first :: _ =>
        if JSString.truthy (DOM.textContent first)
        then Some (DOM.textContent first) else None
    end.
Proof. unfold firstText. by destruct (getElementsByTagName base tag). Qed.

(** X9.  Only the first element of a tag is consulted.  In both branches
    a field is set exactly when the first element of its tag inside the
    marker has a text that is not empty: an empty first element leaves
    the field absent whatever elements of the tag follow it, and the ODF
    branch never sets [lastModifiedBy]. *)
Theorem fields_are_read_from_the_first_match_only
    (parse : string -> Node) (newDate : string -> JSDate)
    (xmlContent : string) (marker : Node) (field : Field) :
  let xml := parse xmlContent in
  let r := parseOfficeMetadata parse newDate xmlContent in
  let decided (matches : list Node) : bool :=
    match matches with
    | [] => false
    | first :: later => JSString.truthy (DOM.textContent first)
    end in
  (head (getElementsByTagName xml "cp:coreProperties") = Some marker ->
   isSet field r = decided (getElementsByTagName marker (coreTag field)))
  /\ (head (getElementsByTagName xml "cp:coreProperties") = None ->
      head (getElementsByTagName xml "office:meta") = Some marker ->
      isSet field r =
        match odfTag field with
        | Some tag => decided (getElementsByTagName marker tag)
        | None => false
        end).
Proof.
  intros xml r decided. subst xml r decided. split.
  - intros Hcp. rewrite (core_branch _ _ _ _ Hcp).
    destruct field; simpl; rewrite firstText_of_matches;
      (destruct (getElementsByTagName marker _) as [|first later];
       [done | by destruct (JSString.truthy _)]).
  - intros Hcp Hmeta. rewrite (odf_branch _ _ _ _ Hcp Hmeta).
    destruct field; simpl; try done; rewrite firstText_of_matches;
      (destruct (getElementsByTagName marker _) as [|first later];
       [done | by destruct (JSString.truthy _)]).
Qed.


Lemma fields_are_read_from_the_first_match_only_witness :
  isSet Title (parseOfficeMetadata Cases.parser Samples.Engine.newDate
                 Cases.shadowedXml) = false
  /\ isSet LastModifiedBy (parseOfficeMetadata Cases.parser
                             Samples.Engine.newDate Cases.odfTypedXml) = false
  /\ isSet Author (parseOfficeMetadata Cases.parser
                     Samples.Engine.newDate Cases.odfTypedXml) = true.
Proof.
  split; [|split].
  - destruct (fields_are_read_from_the_first_match_only
                Cases.parser Samples.Engine.newDate Cases.shadowedXml
                Cases.shadowedMarker Title) as [Hcore _].
    rewrite Hcore by reflexivity. reflexivity.
  - destruct (fields_are_read_from_the_first_match_only
                Cases.parser Samples.Engine.newDate Cases.odfTypedXml
                Cases.odfTypedMeta LastModifiedBy) as [_ Hodf].
    rewrite Hodf by reflexivity. reflexivity.
  - destruct (fields_are_read_from_the_first_match_only
                Cases.parser Samples.Engine.newDate Cases.odfTypedXml
                Cases.odfTypedMeta Author) as [_ Hodf].
    rewrite Hodf by reflexivity. reflexivity.
Defined.

(* ===================================================================== *)
(** ** The dictionaries                                                  *)
(* ===================================================================== *)

Lemma obj_set_empty_lookup k (v : TypedValue) j w :
  obj_set ∅ k v !! j = Some w -> j = k /\ k ≠ "__proto__" /\ w = v.
Proof.
  unfold obj_set. destruct (String.eqb_spec k "__proto__") as [-> | Hk].
  - by rewrite lookup_empty.
  - rewrite lookup_insert_Some, lookup_empty. intros [[-> ->] | [_ [=]]]. done.
Qed.

Section StepFacts.
Variable newDate : string -> JSDate.

(** What one value element leaves in an empty dictionary. *)
Lemma assignValue_lookup name el k v :
  assignValue newDate ∅ name el !! k = Some v ->
  k = name /\ name ≠ "__proto__" /\ wellFormed v = true.
Proof.
  unfold assignValue.
  repeat match goal with
    | |- context [if ?b then _ else _] => destruct b eqn:?
    end;
    intros Hv;
    first [ by rewrite lookup_empty in Hv
          | apply obj_set_empty_lookup in Hv as (-> & ? & ->); done ].
Qed.

(** What one property element leaves in an empty dictionary. *)
Lemma propertyStep_lookup prop k v :
  propertyStep newDate ∅ prop !! k = Some v ->
  DOM.getAttribute prop "name" = Some k
  /\ k ≠ "" /\ k ≠ "__proto__"
  /\ wellFormed v = true
  /\ exists el, firstElementChild prop = Some el
                /\ assignValue newDate ∅ k el !! k = Some v.
Proof.
  unfold propertyStep, firstElementChild. rewrite valueLoop_first.
  destruct (DOM.getAttribute prop "name") as [name|]; simpl;
    [|by rewrite lookup_empty].
  destruct name as [|c name]; simpl; [by rewrite lookup_empty |].
  destruct (List.find DOM.isElement (DOM.childNodes prop)) as [el|];
    [|by rewrite lookup_empty].
  intros Hv. destruct (assignValue_lookup _ _ _ _ Hv) as (-> & Hproto & Hwf).
  repeat split; try done. by exists el.
Qed.

(** What one user-defined element leaves in an empty dictionary. *)
Lemma userDefinedStep_lookup el k v :
  userDefinedStep newDate ∅ el !! k = Some v ->
  DOM.getAttribute el "meta:name" = Some k
  /\ k ≠ "" /\ k ≠ "__proto__"
  /\ DOM.textContent el ≠ ""
  /\ wellFormed v = true.
Proof.
  unfold userDefinedStep.
  destruct (DOM.getAttribute el "meta:name") as [name|]; simpl;
    [|by rewrite lookup_empty].
  destruct name as [|c name]; simpl; [by rewrite lookup_empty |].
  destruct (DOM.textContent el) as [|d text] eqn:Htext; simpl;
    [by rewrite lookup_empty |].
  unfold assignUserDefined.
  repeat match goal with
    | |- context [if ?b then _ else _] => destruct b eqn:?
    end;
    intros Hv;
    first [ by rewrite lookup_empty in Hv
          | apply obj_set_empty_lookup in Hv as (-> & ? & ->); done ].
Qed.

(** The dictionary attached to a record is the one the ODF branch built. *)
Lemma customProperties_attached parse xmlContent custom :
  customProperties (parseOfficeMetadata parse newDate xmlContent) = Some custom ->
  exists officeMeta,
    head (getElementsByTagName (parse xmlContent) "cp:coreProperties") = None
    /\ head (getElementsByTagName (parse xmlContent) "office:meta")
       = Some officeMeta
    /\ custom = userDefinedMap newDate officeMeta.
Proof.
  destruct (head (getElementsByTagName (parse xmlContent) "cp:coreProperties"))
    as [cp|] eqn:Hcp.
  { by rewrite (core_branch _ _ _ _ Hcp). }
  destruct (head (getElementsByTagName (parse xmlContent) "office:meta"))
    as [officeMeta|] eqn:Hmeta.
  - rewrite (odf_branch _ _ _ _ Hcp Hmeta). simpl.
    destruct (hasKeys _); [|done]. intros [= <-]. by exists officeMeta.
  - by rewrite (no_marker_branch _ _ _ Hcp Hmeta).
Qed.
End StepFacts.

(** X10.  [parseOOXMLCustomProperties] invents no key: every key of the
    returned dictionary is the [name] attribute of a [property] element
    of the document that has an element child, it is neither empty nor
    [__proto__], and its value is one the if-chain assigns for the first
    element child of such an element. *)
Theorem custom_property_keys_are_property_names
    (parse : string -> Node) (newDate : string -> JSDate)
    (xmlContent : string) (k : string) (v : TypedValue) :
  parseOOXMLCustomProperties parse newDate xmlContent !! k = Some v ->
  k ≠ "" /\ k ≠ "__proto__"
  /\ exists prop el,
       In prop (getElementsByTagName (parse xmlContent) "property")
       /\ DOM.getAttribute prop "name" = Some k
       /\ firstElementChild prop = Some el
       /\ assignValue newDate ∅ k el !! k = Some v.
Proof.
  unfold parseOOXMLCustomProperties, parseXmlString. intros Hk.
  apply (loop_lookup_origin _ (propertyStep_union newDate)) in Hk
    as [Hk | (prop & Hin & Hv)]; [by rewrite lookup_empty in Hk |].
  apply propertyStep_lookup in Hv as (Hname & He & Hp & _ & el & Hel & Hv).
  repeat split; try done. by exists prop, el.
Qed.

Lemma custom_property_keys_are_property_names_witness :
  exists prop el,
    In prop (getElementsByTagName (Cases.parser Cases.typedXml) "property")
    /\ DOM.getAttribute prop "name" = Some "count"
    /\ firstElementChild prop = Some el
    /\ assignValue Samples.Engine.newDate ∅ "count" el !! "count"
       = Some (VNumber (Finite false 42 0)).
Proof.
  apply (custom_property_keys_are_property_names
           Cases.parser Samples.Engine.newDate Cases.typedXml "count").
  reflexivity.
Defined.

(** X11.  The ODF branch invents no key either: every key of the attached
    [customProperties] is the [meta:name] attribute of a
    [meta:user-defined] element inside the first [office:meta] element,
    whose text is not empty; the key is neither empty nor [__proto__], and
    its value is the one the if-chain assigns for such an element. *)
Theorem user_defined_keys_are_meta_names
    (parse : string -> Node) (newDate : string -> JSDate)
    (xmlContent : string) (custom : PropertyMap)
    (k : string) (v : TypedValue) :
  customProperties (parseOfficeMetadata parse newDate xmlContent)
  = Some custom ->
  custom !! k = Some v ->
  k ≠ "" /\ k ≠ "__proto__"
  /\ exists officeMeta el,
       head (getElementsByTagName (parse xmlContent) "office:meta")
       = Some officeMeta
       /\ In el (getElementsByTagName officeMeta "meta:user-defined")
       /\ DOM.getAttribute el "meta:name" = Some k
       /\ DOM.textContent el ≠ ""
       /\ userDefinedStep newDate ∅ el !! k = Some v.
Proof.
  intros Hcustom Hk.
  apply customProperties_attached in Hcustom as (officeMeta & _ & Hmeta & ->).
  unfold userDefinedMap in Hk.
  apply (loop_lookup_origin _ (userDefinedStep_union newDate)) in Hk
    as [Hk | (el & Hin & Hv)]; [by rewrite lookup_empty in Hk |].
  destruct (userDefinedStep_lookup _ _ _ _ Hv) as (Hname & He & Hp & Htext & _).
  repeat split; try done. by exists officeMeta, el.
Qed.

Lemma user_defined_keys_are_meta_names_witness :
  exists officeMeta el,
    head (getElementsByTagName (Cases.parser Cases.odfTypedXml) "office:meta")
    = Some officeMeta
    /\ In el (getElementsByTagName officeMeta "meta:user-defined")
    /\ DOM.getAttribute el "meta:name" = Some "price"
    /\ DOM.textContent el ≠ ""
    /\ userDefinedStep Samples.Engine.newDate ∅ el !! "price"
       = Some (VText "12").
Proof.
  eapply (user_defined_keys_are_meta_names
            Cases.parser Samples.Engine.newDate Cases.odfTypedXml);
    reflexivity.
Defined.

(** X12.  The values held by the dictionaries are what their type says:
    neither decoder ever stores the number NaN or an invalid date, in the
    dictionary of [parseOOXMLCustomProperties] and in the
    [customProperties] of [parseOfficeMetadata] alike. *)
Theorem dictionaries_hold_no_nan_and_no_invalid_date
    (parse : string -> Node) (newDate : string -> JSDate)
    (xmlContent : string) (k : string) (v : TypedValue) :
  (parseOOXMLCustomProperties parse newDate xmlContent !! k = Some v ->
   wellFormed v = true)
  /\ (forall custom,
        customProperties (parseOfficeMetadata parse newDate xmlContent)
        = Some custom ->
        custom !! k = Some v ->
        wellFormed v = true).
Proof.
  split.
  - unfold parseOOXMLCustomProperties, parseXmlString. intros Hk.
    apply (loop_lookup_origin _ (propertyStep_union newDate)) in Hk
      as [Hk | (prop & Hin & Hv)]; [by rewrite lookup_empty in Hk |].
    by apply propertyStep_lookup in Hv as (_ & _ & _ & Hwf & _).
  - intros custom Hcustom Hk.
    apply customProperties_attached in Hcustom as (officeMeta & _ & _ & ->).
    unfold userDefinedMap in Hk.
    apply (loop_lookup_origin _ (userDefinedStep_union newDate)) in Hk
      as [Hk | (el & Hin & Hv)]; [by rewrite lookup_empty in Hk |].
    by apply userDefinedStep_lookup in Hv as (_ & _ & _ & _ & Hwf).
Qed.

Lemma dictionaries_hold_no_nan_and_no_invalid_date_witness :
  wellFormed (VText "not-a-date") = true
  /\ wellFormed (VTimestamp (TimeValue 1705314600000)) = true.
Proof.
  split.
  - apply (dictionaries_hold_no_nan_and_no_invalid_date
             Samples.parser Samples.Engine.newDate Samples.customXml
             "Due" (VText "not-a-date")).
    reflexivity.
  - destruct (dictionaries_hold_no_nan_and_no_invalid_date
                Cases.parser Samples.Engine.newDate Cases.odfTypedXml
                "due" (VTimestamp (TimeValue 1705314600000))) as [_ Hodf].
    eapply Hodf; reflexivity.
Defined.

(** X13.  Only one value element counts for a property: nodes that are
    not elements are skipped, the first element child is decoded, and
    whatever follows it is ignored. *)
Theorem only_the_first_element_child_is_decoded
    (newDate : string -> JSDate) (o : PropertyMap)
    (tag : string) (attributes : list (string * string))
    (before : list Node) (el : Node) (after : list Node) :
  Forall (fun n => DOM.nodeType n ≠ 1%N) before ->
  DOM.nodeType el = 1%N ->
  propertyStep newDate o (Element tag attributes (before ++ el :: after))
  = propertyStep newDate o (Element tag attributes [el]).
Proof.
  intros Hbefore Hel. unfold propertyStep. simpl.
  destruct (negb _); [done |]. rewrite !valueLoop_first.
  assert (Hfind : List.find DOM.isElement (before ++ el :: after) = Some el).
  { induction before as [|n before IH]; simpl.
    - unfold DOM.isElement. by rewrite Hel.
    - inversion Hbefore as [|? ? Hn Hrest]; subst.
      unfold DOM.isElement at 1.
      destruct (N.eqb_spec (DOM.nodeType n) 1); [contradiction | by apply IH]. }
  rewrite Hfind. simpl. unfold DOM.isElement. by rewrite Hel.
Qed.

Lemma only_the_first_element_child_is_decoded_witness :
  propertyStep Samples.Engine.newDate ∅ Cases.typedFirst
  = {["first" := VText "x"]}.
Proof.
  unfold Cases.typedFirst, Samples.property.
  rewrite (only_the_first_element_child_is_decoded
             Samples.Engine.newDate ∅ "property"
             [("pid", "2"); ("name", "first")]
             [Text " "] (Samples.element "vt:lpwstr" "x")
             [Samples.element "vt:i4" "1"]).
  - reflexivity.
  - repeat constructor. discriminate.
  - reflexivity.
Defined.

(** X19.  A document without [property] elements, the tree of a text the
    parser makes nothing of included, gives the empty dictionary; more
    generally [parseOOXMLCustomProperties] returns the empty dictionary
    exactly when no [property] element of the document assigns a
    value. *)
Theorem no_property_gives_the_empty_dictionary
    (parse : string -> Node) (newDate : string -> JSDate)
    (xmlContent : string) :
  ((forall e, Below e (parse xmlContent) -> DOM.tagName e ≠ Some "property") ->
   parseOOXMLCustomProperties parse newDate xmlContent = ∅)
  /\ (parseOOXMLCustomProperties parse newDate xmlContent = ∅
      <-> forall prop,
            In prop (getElementsByTagName (parse xmlContent) "property") ->
            propertyStep newDate ∅ prop = ∅).
Proof.
  assert (Hiff : parseOOXMLCustomProperties parse newDate xmlContent = ∅
      <-> forall prop,
            In prop (getElementsByTagName (parse xmlContent) "property") ->
            propertyStep newDate ∅ prop = ∅).
  { unfold parseOOXMLCustomProperties, parseXmlString.
    rewrite (loop_empty _ (propertyStep_union newDate)).
    by rewrite List.Forall_forall. }
  split; [|exact Hiff].
  intros Hnone. apply Hiff. intros prop Hin.
  rewrite getElementsByTagName_none in Hin; [destruct Hin | done | done].
Qed.

Lemma no_property_gives_the_empty_dictionary_witness :
  parseOOXMLCustomProperties Samples.parser Samples.Engine.newDate
    Samples.unrelatedXml = ∅
  /\ parseOOXMLCustomProperties Samples.parser Samples.Engine.newDate
       "<<not xml" = ∅.
Proof.
  split.
  - destruct (no_property_gives_the_empty_dictionary
                Samples.parser Samples.Engine.newDate Samples.unrelatedXml)
      as [Hnone _].
    apply Hnone. intros e HB. eapply no_element_named; [| |exact HB];
      first [ discriminate | reflexivity ].
  - destruct (no_property_gives_the_empty_dictionary
                Samples.parser Samples.Engine.newDate "<<not xml")
      as [Hnone _].
    apply Hnone. intros e HB. eapply no_element_named; [| |exact HB];
      first [ discriminate | reflexivity ].
Defined.

(* ===================================================================== *)
(** ** The if-chains                                                     *)
(* ===================================================================== *)

(** X14.  On a qualified name the four type patterns exclude one
    another, so the order in which the if-chain of
    [parseOOXMLCustomProperties] tests them decides nothing: at most one
    of the string, Boolean, number and date patterns matches. *)
Theorem type_patterns_exclude_one_another (tag : string) :
  qualifiedName tag ->
  length (List.filter (fun matches : string -> bool => matches tag)
            [Pattern.isString; Pattern.isBool; Pattern.isNumber;
             Pattern.isDate]) <= 1.
Proof.
  intros Hq. simpl.
  destruct (Pattern.isDate tag) eqn:Hd.
  - rewrite (date_not_string _ Hq Hd), (date_not_bool _ Hq Hd),
      (date_not_number _ Hq Hd). simpl. lia.
  - destruct (Pattern.isNumber tag) eqn:Hn.
    + rewrite (number_not_string _ Hq Hn), (number_not_bool _ Hq Hn).
      simpl. lia.
    + destruct (Pattern.isBool tag) eqn:Hb.
      * rewrite (bool_not_string _ Hq Hb). simpl. lia.
      * destruct (Pattern.isString tag); simpl; lia.
Qed.

Lemma type_patterns_exclude_one_another_witness :
  length (List.filter (fun matches : string -> bool => matches "vt:filetime")
            [Pattern.isString; Pattern.isBool; Pattern.isNumber;
             Pattern.isDate]) <= 1.
Proof.
  apply (type_patterns_exclude_one_another "vt:filetime").
  unfold qualifiedName. simpl. lia.
Defined.

(** X15.  A type the decoders do not know is kept as text.  On the ODF
    path a user-defined element with a name and a text whose value type
    is none of [boolean], [float], [date] and [time] (a missing or empty
    [meta:value-type] counts as [string], and the comparison is exact) is
    stored as its text.  In [parseOOXMLCustomProperties] a value element
    whose tag matches none of the four patterns is stored as its text when
    the text is not empty and assigns nothing when it is, whereas a
    string-typed value element is stored even when its text is empty. *)
Theorem unknown_types_are_kept_as_text (newDate : string -> JSDate) :
  (forall (o : PropertyMap) el name,
      DOM.getAttribute el "meta:name" = Some name ->
      name ≠ "" ->
      DOM.textContent el ≠ "" ->
      ~ In (orElse (DOM.getAttribute el "meta:value-type") "string")
           ["boolean"; "float"; "date"; "time"] ->
      userDefinedStep newDate o el
      = obj_set o name (VText (DOM.textContent el)))
  /\ (forall (o : PropertyMap) name el,
         let tag := orElse (DOM.tagName el) "" in
         Pattern.isString tag = false ->
         Pattern.isBool tag = false ->
         Pattern.isNumber tag = false ->
         Pattern.isDate tag = false ->
         assignValue newDate o name el
         = if JSString.truthy (DOM.textContent el)
           then obj_set o name (VText (DOM.textContent el))
           else o)
  /\ (forall (o : PropertyMap) name el,
         Pattern.isString (orElse (DOM.tagName el) "") = true ->
         assignValue newDate o name el
         = obj_set o name (VText (DOM.textContent el))).
Proof.
  split; [|split].
  - intros o el name Hname Hne Htext Htype. unfold userDefinedStep.
    rewrite Hname. simpl.
    destruct name as [|c name]; [done |].
    destruct (DOM.textContent el) as [|d text] eqn:E; [done |]. simpl.
    unfold assignUserDefined.
    set (valueType := orElse _ _) in *.
    destruct (String.eqb_spec valueType "boolean") as [Heq | _];
      [rewrite Heq in Htype; simpl in Htype; tauto |].
    destruct (String.eqb_spec valueType "float") as [Heq | _];
      [rewrite Heq in Htype; simpl in Htype; tauto |].
    destruct (String.eqb_spec valueType "date") as [Heq | _];
      [rewrite Heq in Htype; simpl in Htype; tauto |].
    destruct (String.eqb_spec valueType "time") as [Heq | _];
      [rewrite Heq in Htype; simpl in Htype; tauto |].
    reflexivity.
  - intros o name el tag Hs Hb Hn Hd. subst tag. unfold assignValue.
    by rewrite Hs, Hb, Hn, Hd.
  - intros o name el Hs. unfold assignValue. by rewrite Hs.
Qed.

Lemma unknown_types_are_kept_as_text_witness :
  userDefinedStep Samples.Engine.newDate ∅ Cases.odfTypedPrice
  = {["price" := VText "12"]}
  /\ userDefinedStep Samples.Engine.newDate ∅ Cases.odfTypedPlain
     = {["plain" := VText "text"]}
  /\ propertyStep Samples.Engine.newDate ∅ Cases.typedBlob
     = {["blob" := VText "AAEC"]}
  /\ propertyStep Samples.Engine.newDate ∅ Cases.typedVoid = ∅
  /\ propertyStep Samples.Engine.newDate ∅ Cases.typedNone
     = {["none" := VText ""]}.
Proof.
  destruct (unknown_types_are_kept_as_text Samples.Engine.newDate)
    as (Hodf & Hother & Hstring).
  split; [|split; [|split; [|split]]].
  - rewrite (Hodf ∅ Cases.odfTypedPrice "price");
      first [reflexivity | discriminate | simpl; intuition discriminate].
  - rewrite (Hodf ∅ Cases.odfTypedPlain "plain");
      first [reflexivity | discriminate | simpl; intuition discriminate].
  - rewrite (propertyStep_value _ _ _ "blob" (Samples.element "vt:blob" "AAEC"))
      by reflexivity.
    rewrite Hother by reflexivity. reflexivity.
  - rewrite (propertyStep_value _ _ _ "void" (Element "vt:empty" [] []))
      by reflexivity.
    rewrite Hother by reflexivity. reflexivity.
  - rewrite (propertyStep_value _ _ _ "none" (Element "vt:lpwstr" [] []))
      by reflexivity.
    rewrite Hstring by reflexivity. reflexivity.
Defined.



(* ===================================================================== *)
(** ** What a call does to the heap                                      *)
(* ===================================================================== *)

(** X17.  A call mutates only what it creates.  On the heap of the
    metadata records and dictionaries the decoders build, every object
    that was there before a call to either decoder is there unchanged
    after it, a reference that denoted a record or a dictionary before
    the call denotes the same one after it, and the reference the call
    returns is to an object that did not exist before. *)
Theorem earlier_results_are_left_alone
    (parse : string -> Node) (newDate : string -> JSDate)
    (xmlContent : string) (h : Imperative.Heap) :
  let untouched (call : Imperative.Run nat) : Prop :=
    h !! fst (call h) = None
    /\ is_Some (snd (call h) !! fst (call h))
    /\ (forall earlier object,
           h !! earlier = Some object ->
           snd (call h) !! earlier = Some object)
    /\ (forall earlier value,
           Imperative.readMetadata h earlier = Some value ->
           Imperative.readMetadata (snd (call h)) earlier = Some value)
    /\ (forall earlier own,
           Imperative.readProperties h earlier = Some own ->
           Imperative.readProperties (snd (call h)) earlier = Some own) in
  untouched (Imperative.parseOfficeMetadata parse newDate xmlContent)
  /\ untouched (Imperative.parseOOXMLCustomProperties parse newDate xmlContent).
Proof.
  assert (Hframe : forall (call : Imperative.Run nat) objects,
             call h = (length h, h ++ objects) ->
             is_Some ((h ++ objects) !! length h) ->
             h !! fst (call h) = None
             /\ is_Some (snd (call h) !! fst (call h))
             /\ (forall earlier object,
                    h !! earlier = Some object ->
                    snd (call h) !! earlier = Some object)
             /\ (forall earlier value,
                    Imperative.readMetadata h earlier = Some value ->
                    Imperative.readMetadata (snd (call h)) earlier = Some value)
             /\ (forall earlier own,
                    Imperative.readProperties h earlier = Some own ->
                    Imperative.readProperties (snd (call h)) earlier
                    = Some own)).
  { intros call objects -> Hnew. simpl.
    split; [by apply lookup_ge_None_2 |]. split; [exact Hnew |].
    split; [intros earlier object; apply lookup_app_l_Some |].
    split; [intros earlier value; apply readMetadata_app |].
    intros earlier own. apply readProperties_app. }
  intros untouched. subst untouched. split.
  - destruct (parseOfficeMetadata_run parse newDate xmlContent h)
      as (objects & Hrun & Hread).
    apply (Hframe _ objects Hrun).
    unfold Imperative.readMetadata in Hread.
    destruct ((h ++ objects) !! length h); [eauto | done].
  - apply (Hframe _ _ (parseOOXMLCustomProperties_run parse newDate xmlContent h)).
    rewrite lookup_last. eauto.
Qed.

Lemma earlier_results_are_left_alone_witness :
  Imperative.readMetadata
    (snd (Imperative.parseOOXMLCustomProperties Samples.parser
            Samples.Engine.newDate Samples.customXml
            (snd (Imperative.parseOfficeMetadata Samples.parser
                    Samples.Engine.newDate Samples.odfXml []))))
    0
  = Some (parseOfficeMetadata Samples.parser Samples.Engine.newDate
            Samples.odfXml).
Proof.
  destruct (earlier_results_are_left_alone
              Samples.parser Samples.Engine.newDate Samples.customXml
              (snd (Imperative.parseOfficeMetadata Samples.parser
                      Samples.Engine.newDate Samples.odfXml [])))
    as [_ (_ & _ & _ & Hrecord & _)].
  apply Hrecord. reflexivity.
Defined.
